(** * SimdutParser: the section extractor of [text_parser.py]

    A shallow embedding of [TextPDFParser] and of [main], followed by the
    properties of the extraction pipeline.

    Conventions of the model.
    - A Python [str] is a [string]; every [ascii] stands for one code point
      in the range 0..255 (the Latin-1 part of Unicode).
    - A Python dict is an association list kept in insertion order: the
      order in which [new.items()] is visited decides the outcome of
      [_merge_data], and a merged dict is itself visited by a later merge.
    - A dict value is either a [str] or a list of [str]; the fragments are
      built afresh by every call, so the two arguments of [_merge_data] are
      never one dict, no list is shared between two live dicts, and values
      can be passed by copy.
    - The PyMuPDF objects (document, page, table, rectangle) are records of
      what the parser reads from them. *)

From Stdlib Require Import List String Ascii Bool Arith Lia QArith.
Import ListNotations.
Close Scope Q_scope.
Open Scope string_scope.
Open Scope list_scope.
Open Scope bool_scope.
Open Scope nat_scope.

(** ** Python strings *)

Module PyStr.

(** [str.isspace] on one code point below 256; the same set is [\s] of
    [re] on a [str] pattern. *)
Definition isspace (c : ascii) : bool :=
  let n := nat_of_ascii c in
  ((9 <=? n) && (n <=? 13)) || ((28 <=? n) && (n <=? 32))
  || (n =? 133) || (n =? 160).

(** [bool(s)] *)
Definition truthy (s : string) : bool :=
  match s with EmptyString => false | String _ _ => true end.

Fixpoint lstrip (s : string) : string :=
  match s with
  | EmptyString => EmptyString
  | String c r => if isspace c then lstrip r else s
  end.

Fixpoint rstrip (s : string) : string :=
  match s with
  | EmptyString => EmptyString
  | String c r =>
      let r' := rstrip r in
      if isspace c && negb (truthy r') then EmptyString else String c r'
  end.

(** [s.strip()] *)
Definition strip (s : string) : string := rstrip (lstrip s).

(** [re.sub(r'\s+', ' ', s)]; [in_run] tells that the previous code point
    belonged to the run of white space already replaced. *)
Fixpoint sub_ws_from (in_run : bool) (s : string) : string :=
  match s with
  | EmptyString => EmptyString
  | String c r =>
      if isspace c
      then (if in_run then sub_ws_from true r
            else String " " (sub_ws_from true r))
      else String c (sub_ws_from false r)
  end.

Definition sub_ws (s : string) : string := sub_ws_from false s.

(** [s.split('\n')] *)
Fixpoint split_nl (s : string) : list string :=
  match s with
  | EmptyString => [EmptyString]
  | String c r =>
      if Ascii.eqb c "010"%char then EmptyString :: split_nl r
      else match split_nl r with
           | h :: t => String c h :: t
           | [] => [String c EmptyString]
           end
  end.

(** [s.replace(old, '')] for a non-empty [old]: the occurrences are
    deleted from left to right without overlap; [skip] counts the code
    points of the current occurrence still to be dropped. *)
Fixpoint delete_from (old : string) (skip : nat) (s : string) : string :=
  match s with
  | EmptyString => EmptyString
  | String c r =>
      match skip with
      | S k => delete_from old k r
      | O => if prefix old s
             then delete_from old (Nat.pred (String.length old)) r
             else String c (delete_from old 0 r)
      end
  end.

Definition replace_del (old s : string) : string :=
  if truthy old then delete_from old 0 s else s.

(** Lower case of a code point below 256, as [re.IGNORECASE] folds it. *)
Definition lower (c : ascii) : ascii :=
  let n := nat_of_ascii c in
  if ((65 <=? n) && (n <=? 90))
     || ((192 <=? n) && (n <=? 222) && negb (n =? 215))
  then ascii_of_nat (n + 32) else c.

Fixpoint iprefix (p s : string) : bool :=
  match p, s with
  | EmptyString, _ => true
  | String _ _, EmptyString => false
  | String a p', String b s' =>
      Ascii.eqb (lower a) (lower b) && iprefix p' s'
  end.

(** [re.compile(re.escape(p), flags=re.IGNORECASE).search(s)] as a bool *)
Fixpoint isearch (p s : string) : bool :=
  iprefix p s
  || match s with
     | EmptyString => false
     | String _ r => isearch p r
     end.

End PyStr.

(** ** Python dicts of scalar-or-list values *)

Inductive value : Type :=
| Scalar (s : string)
| Seq (l : list string).

Definition pydict : Type := list (string * value).

Fixpoint dict_get (k : string) (d : pydict) : option value :=
  match d with
  | [] => None
  | (k', v) :: r => if String.eqb k k' then Some v else dict_get k r
  end.

(** [k in d] *)
Definition dict_mem (k : string) (d : pydict) : bool :=
  match dict_get k d with Some _ => true | None => false end.

(** [d[k] = v]: an existing key keeps its position, a new key goes last. *)
Fixpoint dict_set (k : string) (v : value) (d : pydict) : pydict :=
  match d with
  | [] => [(k, v)]
  | (k', v') :: r =>
      if String.eqb k k' then (k', v) :: r else (k', v') :: dict_set k v r
  end.

Definition dict_keys (d : pydict) : list string := map fst d.

(** ** [TextPDFParser._merge_data] *)

(** The derived key [f"{key}_conflict"]. *)
Definition conflict_key (key : string) : string :=
  (key ++ "_conflict")%string.

(** One turn of the loop [for key, value in new.items()]. *)
Definition merge_item (existing : pydict) (kv : string * value) : pydict :=
  let '(key, value) := kv in
  match dict_get key existing with
  | Some (Seq l) =>
      match value with
      | Seq l2 => dict_set key (Seq (l ++ l2)) existing
      | Scalar s => dict_set key (Seq (l ++ [s])) existing
      end
  | Some (Scalar _) => dict_set (conflict_key key) value existing
  | None => dict_set key value existing
  end.

Definition _merge_data (existing new : pydict) : pydict :=
  fold_left merge_item new existing.

(** ** [_clean_table_cell], [_process_table] *)

Definition _clean_table_cell (cell : string) : string :=
  PyStr.strip (PyStr.sub_ws cell).

(** A cell of the grid returned by [table.extract()]: a [str] or [None]. *)
Definition cell : Type := option string.

(** [str(cell)] *)
Definition py_str (c : cell) : string :=
  match c with Some s => s | None => "None" end.

(** [zip( *rows )]: the tuples stop with the shortest row. *)
Fixpoint zip_star {A : Type} (rows : list (list A)) : list (list A) :=
  match rows with
  | [] => []
  | r :: rs =>
      match rs with
      | [] => map (fun x => [x]) r
      | _ :: _ => map (fun p => fst p :: snd p) (combine r (zip_star rs))
      end
  end.

(** One entry of the dict comprehension of [_process_table]. *)
Definition table_entry (content : pydict) (hc : string * list cell) : pydict :=
  let '(header, column) := hc in
  if PyStr.truthy header
  then dict_set header
         (Seq (map (fun c => _clean_table_cell (py_str c)) column)) content
  else content.

(** [data] is a list of lists of cells, on which neither [TypeError] nor
    [IndexError] can be raised: the handler of the source is not reached. *)
Definition _process_table (data : list (list cell)) : pydict :=
  if List.length data <? 2 then []
  else
    let headers := map (fun c => _clean_table_cell (py_str c)) (hd [] data) in
    let columns := zip_star (tl data) in
    fold_left table_entry (combine headers columns) [].

(** ** [_process_text_block] *)

(** The two comprehensions that build [lines]. *)
Definition text_lines (text : string) : list string :=
  filter PyStr.truthy
    (map (fun line => PyStr.sub_ws (PyStr.strip line)) (PyStr.split_nl text)).

Definition enumerate {A : Type} (l : list A) : list (nat * A) :=
  combine (seq 0 (List.length l)) l.

(** One turn of [for i, line in enumerate(lines)] on the state
    [(processed, current_key)]. *)
Definition text_item (st : pydict * option string) (il : nat * string)
  : pydict * option string :=
  let '(processed, current_key) := st in
  let '(i, line) := il in
  if i mod 2 =? 0 then (processed, Some line)
  else match current_key with
       | Some k =>
           if PyStr.truthy k then (dict_set k (Scalar line) processed, None)
           else st
       | None => st
       end.

(** The loop and the closing test on an odd number of lines. *)
Definition text_pairs (lines : list string) : pydict :=
  let '(processed, current_key) :=
    fold_left text_item (enumerate lines) ([], None) in
  match current_key with
  | Some k =>
      if dict_mem k processed then processed
      else dict_set k (Scalar "") processed
  | None => processed
  end.

Definition _process_text_block (text : string) : pydict :=
  text_pairs (text_lines text).

(** ** The document access objects of PyMuPDF *)

(** Coordinates are floats that the parser only copies and compares; they
    are taken as rationals. *)
Record Rect : Type := mkRect { x0 : Q; y0 : Q; x1 : Q; y1 : Q }.

Record Table : Type := mkTable { extract : list (list cell); bbox : Rect }.

(** A block of [page.get_text("blocks")]: [block[:4]] and [block[4]]. *)
Record Block : Type := mkBlock { block_rect : Rect; block_text : string }.

Inductive exn : Type :=
| KeyError
| OtherError (name : string).

(** What a call of [page.search_for] does: it returns rectangles (an empty
    list stands for every falsy result) or raises. *)
Inductive searched : Type :=
| Found (rects : list Rect)
| Raised (e : exn).

(** A page. [search_for] is given [None] by the parser when a page has no
    stop marker, so its argument is a [str] or [None]. *)
Record Page : Type := mkPage {
  get_text : string;
  page_width : Q;
  search_for : option string -> searched;
  find_tables : Rect -> list Table;
  get_blocks : Rect -> list Block
}.

Record Document : Type := mkDocument { doc_name : string; pages : list Page }.

(** ** [TextPDFParser] *)

Definition _compile_pattern (text : string) : string := PyStr.strip text.

Record TextPDFParser : Type := mkParser {
  section_title : string;
  pat_section : string;
  pat_base_section : string
}.

(** [__init__]; [config] is the value of [section_title] when the
    configuration has one. *)
Definition __init__ (config : option string) : TextPDFParser :=
  let title := match config with Some t => t | None => "Section 14" end in
  {| section_title := title;
     pat_section := _compile_pattern title;
     pat_base_section := _compile_pattern "section" |}.

(** The dict [boundaries] once filled: both keys are always set, and
    [stop_marker] is [None] when [next] finds nothing. *)
Record Markers : Type := mkMarkers {
  start_marker : string;
  stop_marker : option string
}.

Fixpoint find_boundaries (self : TextPDFParser) (lines : list string)
  : option Markers :=
  match lines with
  | [] => None
  | line :: rest =>
      if PyStr.isearch (pat_section self) line
      then Some {| start_marker := line;
                   stop_marker :=
                     find (PyStr.isearch (pat_base_section self)) rest |}
      else find_boundaries self rest
  end.

Definition _find_section_boundaries (self : TextPDFParser) (page : Page)
  : option Markers :=
  find_boundaries self (map PyStr.strip (PyStr.split_nl (get_text page))).

(** The handler [except KeyError] turns that exception into [None]; any
    other exception leaves the function. *)
Definition _calculate_subsection_bbox (page : Page) (markers : Markers)
  : exn + option Rect :=
  match search_for page (Some (start_marker markers)) with
  | Raised KeyError => inr None
  | Raised e => inl e
  | Found start_rects =>
      match search_for page (stop_marker markers) with
      | Raised KeyError => inr None
      | Raised e => inl e
      | Found stop_rects =>
          match start_rects, stop_rects with
          | s :: _, t :: _ =>
              inr (Some (mkRect 0%Q (y1 s) (page_width page) (y0 t)))
          | _, _ => inr None
          end
      end
  end.

(** ** The extraction pipeline *)

Section Pipeline.

(** The two operations of [pymupdf.Rect] that the parser calls:
    [bool(rect)] and [rect.intersects(zone)]. *)
Variable rect_truth : Rect -> bool.
Variable intersects : Rect -> Rect -> bool.

(** One turn of [for table in page.find_tables(clip=bbox)] on the state
    [(content, exclusion_zones)]. *)
Definition table_turn (st : pydict * list Rect) (table : Table)
  : pydict * list Rect :=
  let '(content, exclusion_zones) := st in
  (_merge_data content (_process_table (extract table)),
   exclusion_zones ++ [bbox table]).

(** One turn of [for block in page.get_text("blocks", clip=bbox)]. *)
Definition block_turn (exclusion_zones : list Rect) (content : pydict)
  (block : Block) : pydict :=
  let rect := block_rect block in
  let text := block_text block in
  if negb (PyStr.truthy (PyStr.strip text))
     || existsb (fun zone => intersects rect zone) exclusion_zones
  then content
  else _merge_data content (_process_text_block text).

Definition _process_page_content (page : Page) (bbox : Rect) : pydict :=
  let '(content, exclusion_zones) :=
    fold_left table_turn (find_tables page bbox) ([], []) in
  fold_left (block_turn exclusion_zones) (get_blocks page bbox) content.

(** The loop [for page in doc] of [extract_section] on the running
    [result]; [inl] is an exception that leaves the function. *)
Fixpoint extract_pages (self : TextPDFParser) (ps : list Page)
  (result : pydict) : exn + pydict :=
  match ps with
  | [] => inr result
  | page :: rest =>
      if negb (PyStr.isearch (pat_section self) (get_text page))
      then extract_pages self rest result
      else
        match _find_section_boundaries self page with
        | None => extract_pages self rest result
        | Some markers =>
            match _calculate_subsection_bbox page markers with
            | inl e => inl e
            | inr None => extract_pages self rest result
            | inr (Some bbox) =>
                if negb (rect_truth bbox)
                then extract_pages self rest result
                else
                  let page_result := _process_page_content page bbox in
                  extract_pages self rest (_merge_data result page_result)
            end
        end
  end.

(** [extract_section] from the document that [pymupdf.open] returned on:
    the seed of [result] and the loop over the pages. Of the calls made on
    the engine only [search_for], which is handed [None], is given a way
    to raise. *)
Definition extract_section (self : TextPDFParser) (doc : Document)
  : exn + pydict :=
  let result := [("name", Scalar (PyStr.replace_del ".pdf" (doc_name doc)))] in
  extract_pages self (pages doc) result.

(** ** [export_to_csv] and [main] *)

Definition value_len (v : value) : nat :=
  match v with Seq l => List.length l | Scalar _ => 1 end.

(** The cell of [header] in row [row_idx]; an index past the end of a
    list gives the empty string. *)
Definition csv_entry (row_idx : nat) (v : value) : string :=
  match v with
  | Seq l => nth row_idx l ""
  | Scalar s => if row_idx =? 0 then s else ""
  end.

(** The rows handed to the CSV writer, the header row first; [None] when
    nothing is written. *)
Definition export_to_csv (data : pydict) : option (list (list string)) :=
  match data with
  | [] => None
  | _ :: _ =>
      let headers := dict_keys data in
      let max_rows := list_max (map value_len (map snd data)) in
      let row row_idx :=
        map (fun header =>
               match dict_get header data with
               | Some v => csv_entry row_idx v
               | None => ""
               end) headers in
      Some (headers :: map row (seq 0 max_rows))
  end.

(** How the process ends: normally, with the rows written if any, or by
    [SystemExit(1)]. *)
Inductive outcome : Type :=
| Exit0 (written : option (list (list string)))
| Exit1.

(** [main] once the command line is parsed. [config] is what the two
    statements that load the configuration and build the parser give: an
    exception (of the file, of YAML, or of [TextPDFParser] on what was
    read), or the section title that the parser is built with; [opened]
    is what [pymupdf.open] gives. [Exit0] carries the rows that
    [export_to_csv] hands to the CSV writer, for an output file that can
    be written. *)
Definition main (config : exn + option string) (opened : exn + Document)
  : outcome :=
  match config with
  | inl _ => Exit1
  | inr cfg =>
      let parser := __init__ cfg in
      match opened with
      | inl _ => Exit1
      | inr doc =>
          match extract_section parser doc with
          | inl _ => Exit1
          | inr data =>
              match data with
              | _ :: _ => Exit0 (export_to_csv data)
              | [] => Exit1
              end
          end
      end
  end.

End Pipeline.

(** ** Reference definitions for the statements *)

(** The rule of the merger for one incoming entry, as a relation between
    the accumulator before and after. *)
Definition agree_except (k : string) (d d' : pydict) : Prop :=
  forall k', k' <> k -> dict_get k' d' = dict_get k' d.

Definition merge_rule (existing : pydict) (key : string) (v : value)
  (existing' : pydict) : Prop :=
  match dict_get key existing, v with
  | None, _ =>
      existing' = existing ++ [(key, v)]
  | Some (Seq l), Seq l2 =>
      dict_get key existing' = Some (Seq (l ++ l2))
      /\ List.length (l ++ l2) = List.length l + List.length l2
      /\ agree_except key existing existing'
  | Some (Seq l), Scalar s =>
      dict_get key existing' = Some (Seq (l ++ [s]))
      /\ agree_except key existing existing'
  | Some (Scalar s0), _ =>
      dict_get key existing' = Some (Scalar s0)
      /\ dict_get (conflict_key key) existing' = Some v
      /\ agree_except (conflict_key key) existing existing'
  end.

(** The entries of [new] handled one after the other by [merge_rule]. *)
Inductive merge_run : pydict -> pydict -> pydict -> Prop :=
| merge_run_nil : forall existing, merge_run existing [] existing
| merge_run_cons : forall existing key v new mid final,
    merge_rule existing key v mid ->
    merge_run mid new final ->
    merge_run existing ((key, v) :: new) final.

(** Lines paired two by two: a key and the value that follows it; a last
    key left alone gets the empty string unless the key is already set. *)
Fixpoint pair_lines (acc : pydict) (lines : list string) : pydict :=
  match lines with
  | [] => acc
  | k :: rest =>
      match rest with
      | [] => if dict_mem k acc then acc else dict_set k (Scalar "") acc
      | v :: rest' => pair_lines (dict_set k (Scalar v) acc) rest'
      end
  end.

(** White-space normalisation, said without the code: the words of the
    string, joined by single spaces. The white space is that of Python on
    the code points below 256; a word is a longest run of code points that
    are not white. *)
Definition white_space : list nat :=
  [9; 10; 11; 12; 13; 28; 29; 30; 31; 32; 133; 160].

Definition is_white (c : ascii) : bool :=
  existsb (Nat.eqb (nat_of_ascii c)) white_space.

(** [word] is the word being read, not yet closed. *)
Fixpoint words_from (word s : string) : list string :=
  match s with
  | EmptyString =>
      match word with EmptyString => [] | String _ _ => [word] end
  | String c r =>
      if is_white c
      then match word with
           | EmptyString => words_from EmptyString r
           | String _ _ => word :: words_from EmptyString r
           end
      else words_from (word ++ String c EmptyString) r
  end.

Definition words (s : string) : list string := words_from EmptyString s.

Fixpoint join_words (ws : list string) : string :=
  match ws with
  | [] => EmptyString
  | w :: rest =>
      match rest with
      | [] => w
      | _ :: _ => (w ++ " " ++ join_words rest)%string
      end
  end.

Definition normalize (s : string) : string := join_words (words s).

(** The lines of a text: what stands between its line feeds; [line] is
    the line being read. *)
Fixpoint lines_from (line s : string) : list string :=
  match s with
  | EmptyString => [line]
  | String c r =>
      if Ascii.eqb c "010"%char then line :: lines_from EmptyString r
      else lines_from (line ++ String c EmptyString) r
  end.

Definition lines_of (text : string) : list string :=
  lines_from EmptyString text.

Definition not_empty (s : string) : bool := negb (String.eqb s "").

(** Some code point of [s] is not white space. *)
Fixpoint has_nonspace (s : string) : bool :=
  match s with
  | EmptyString => false
  | String c r => negb (PyStr.isspace c) || has_nonspace r
  end.

(** A file name without its extension: the part before the last dot. *)
Fixpoint has_dot (s : string) : bool :=
  match s with
  | EmptyString => false
  | String c r => Ascii.eqb c "."%char || has_dot r
  end.

Fixpoint without_extension (s : string) : string :=
  match s with
  | EmptyString => EmptyString
  | String c r =>
      if Ascii.eqb c "."%char && negb (has_dot r) then EmptyString
      else String c (without_extension r)
  end.

(** The file name of a path: what follows its last slash. *)
Fixpoint has_slash (s : string) : bool :=
  match s with
  | EmptyString => false
  | String c r => Ascii.eqb c "/"%char || has_slash r
  end.

Fixpoint base_name (s : string) : string :=
  match s with
  | EmptyString => EmptyString
  | String c r =>
      if has_slash r then base_name r
      else if Ascii.eqb c "/"%char then r else s
  end.

Definition file_stem (path : string) : string :=
  without_extension (base_name path).

(** Column [j] of a grid. *)
Definition column_of (j : nat) (rows : list (list cell)) : list string :=
  map (fun row => normalize (py_str (nth j row None))) rows.

(** The least length of a row. *)
Fixpoint width_of {A : Type} (rows : list (list A)) : nat :=
  match rows with
  | [] => 0
  | r :: rs =>
      match rs with
      | [] => List.length r
      | _ :: _ => Nat.min (List.length r) (width_of rs)
      end
  end.

(** The headers of a grid, normalised. *)
Definition headers_of (data : list (list cell)) : list string :=
  map (fun c => normalize (py_str c)) (hd [] data).

(** [old in s] *)
Fixpoint occurs (old s : string) : bool :=
  prefix old s
  || match s with
     | EmptyString => false
     | String _ r => occurs old r
     end.

(** The lines that [_find_section_boundaries] iterates over. *)
Definition page_lines (page : Page) : list string :=
  map PyStr.strip (PyStr.split_nl (get_text page)).

(** The blocks that [_process_page_content] does not pass over: those
    with some text that meet no exclusion zone. *)
Definition kept_block (intersects : Rect -> Rect -> bool) (zones : list Rect)
  (block : Block) : bool :=
  PyStr.truthy (PyStr.strip (block_text block))
  && negb (existsb (fun zone => intersects (block_rect block) zone) zones).

(** ** Sample inputs *)

(** The line feed, and lines joined by it. *)
Definition nl : string := String "010"%char EmptyString.

Fixpoint unlines (lines : list string) : string :=
  match lines with
  | [] => EmptyString
  | l :: rest =>
      match rest with
      | [] => l
      | _ :: _ => (l ++ nl ++ unlines rest)%string
      end
  end.

(** A text block with the key [A] three times, the last time alone. *)
Definition sample_block_text : string :=
  unlines ["A"; "1"; "B"; "2"; "A"; "3"; "A"].

Definition sample_grid : list (list cell) :=
  [[Some "Ingredient"; Some "CAS"]; [Some "Water"; Some "7732-18-5"]].

(** [bool(rect)] and [rect.intersects] as PyMuPDF documents them: a
    rectangle is false when its four coordinates are zero, and two
    rectangles intersect when they share an area. *)
Definition sample_rect_truth (r : Rect) : bool :=
  negb (Qeq_bool (x0 r) 0 && Qeq_bool (y0 r) 0
        && Qeq_bool (x1 r) 0 && Qeq_bool (y1 r) 0).

Definition Qlt_bool (a b : Q) : bool := negb (Qle_bool b a).

Definition sample_intersects (a b : Rect) : bool :=
  Qlt_bool (x0 a) (x1 b) && Qlt_bool (x0 b) (x1 a)
  && Qlt_bool (y0 a) (y1 b) && Qlt_bool (y0 b) (y1 a).

Definition sample_table : Table :=
  {| extract := sample_grid; bbox := mkRect 72 120 300 160 |}.

Definition block_in_table : Block :=
  {| block_rect := mkRect 72 120 300 140;
     block_text := unlines ["Ingredient"; "CAS"] |}.

Definition block_below_table : Block :=
  {| block_rect := mkRect 72 170 300 200;
     block_text := unlines ["Name"; "Acme"; "Date"] |}.

(** A search that finds the two markers of [sample_page] and nothing else,
    nothing either when it is given [None]. *)
Definition sample_search (needle : option string) : searched :=
  match needle with
  | Some s =>
      if String.eqb s "SECTION 14" then Found [mkRect 72 100 200 112]
      else if String.eqb s "Section 15 - Other Info"
           then Found [mkRect 72 300 250 312]
           else Found []
  | None => Found []
  end.

Definition sample_page : Page :=
  {| get_text :=
       unlines ["Safety sheet"; "SECTION 14"; "Ingredient CAS";
                "Water 7732-18-5"; "Section 15 - Other Info"];
     page_width := 595;
     search_for := sample_search;
     find_tables := fun _ => [sample_table];
     get_blocks := fun _ => [block_in_table; block_below_table] |}.

(** [sample_page] without the block laid over the table. *)
Definition sample_page_less : Page :=
  {| get_text := get_text sample_page;
     page_width := 595;
     search_for := sample_search;
     find_tables := fun _ => [sample_table];
     get_blocks := fun _ => [block_below_table] |}.

(** A page that names the section and has no later line with "section". *)
Definition page_without_stop : Page :=
  {| get_text := unlines ["SECTION 14"; "Transport information"];
     page_width := 595;
     search_for := sample_search;
     find_tables := fun _ => [sample_table];
     get_blocks := fun _ => [block_below_table] |}.

(** The same page on an engine whose search does not take [None]: the
    call ends the run there. *)
Definition strict_search (needle : option string) : searched :=
  match needle with
  | Some _ => sample_search needle
  | None => Raised (OtherError "search_for(None)")
  end.

Definition page_without_stop_strict : Page :=
  {| get_text := get_text page_without_stop;
     page_width := 595;
     search_for := strict_search;
     find_tables := fun _ => [sample_table];
     get_blocks := fun _ => [block_below_table] |}.

(** A page whose stop marker is found above its start marker. *)
Definition flipped_search (needle : option string) : searched :=
  match needle with
  | Some s =>
      if String.eqb s "SECTION 14" then Found [mkRect 72 300 200 312]
      else Found [mkRect 72 100 250 112; mkRect 72 400 250 412]
  | None => Found []
  end.

Definition page_upside_down : Page :=
  {| get_text := unlines ["Section 15 - Other Info"; "SECTION 14"];
     page_width := 595;
     search_for := flipped_search;
     find_tables := fun _ => [];
     get_blocks := fun _ => [] |}.

Definition page_other : Page :=
  {| get_text := unlines ["Safety sheet"; "1. Identification"];
     page_width := 595;
     search_for := sample_search;
     find_tables := fun _ => [sample_table];
     get_blocks := fun _ => [block_below_table] |}.

Definition sample_doc : Document :=
  {| doc_name := "sheet.pdf"; pages := [page_other; sample_page] |}.

Definition doc_without_section : Document :=
  {| doc_name := "sheet.pdf"; pages := [page_other; page_other] |}.

Definition doc_two_extensions : Document :=
  {| doc_name := "sheet.pdf.pdf"; pages := [] |}.

Definition doc_in_directory : Document :=
  {| doc_name := "sub/sheet.pdf"; pages := [page_other] |}.

(** A grid with white space around and inside its cells, and a header
    made of spaces only. *)
Definition untidy_grid : list (list cell) :=
  [[Some " A  x "; Some "  "; Some "B"];
   [Some " 1 "; Some "2"; Some (unlines ["b"; " c"])]].

Definition doc_upper_case : Document :=
  {| doc_name := "sheet.PDF"; pages := [page_other; sample_page] |}.

Definition sample_record : pydict :=
  [("name", Scalar "sheet"); ("Ingredient", Seq ["Water"; "Ethanol"]);
   ("CAS", Seq ["7732-18-5"])].

(** * Properties *)

(** ** Dicts *)

Ltac string_cases a b :=
  let E := fresh "E" in
  destruct (String.eqb_spec a b) as [E | E]; [try subst | idtac].

Lemma dict_get_set_same (k : string) (v : value) (d : pydict) :
  dict_get k (dict_set k v d) = Some v.
Proof.
  induction d as [| [k' v'] r IH]; simpl.
  - now rewrite String.eqb_refl.
  - string_cases k k'; simpl.
    + now rewrite String.eqb_refl.
    + apply String.eqb_neq in E. now rewrite E.
Qed.

Lemma dict_get_set_other (k k' : string) (v : value) (d : pydict) :
  k' <> k -> dict_get k' (dict_set k v d) = dict_get k' d.
Proof.
  intros Hne. induction d as [| [k0 v0] r IH]; simpl.
  - apply String.eqb_neq in Hne. now rewrite Hne.
  - string_cases k k0; simpl.
    + apply String.eqb_neq in Hne. now rewrite Hne.
    + now rewrite IH.
Qed.

Lemma dict_set_absent (k : string) (v : value) (d : pydict) :
  dict_get k d = None -> dict_set k v d = d ++ [(k, v)].
Proof.
  induction d as [| [k0 v0] r IH]; simpl; intros H.
  - reflexivity.
  - string_cases k k0.
    + discriminate.
    + now rewrite IH.
Qed.

Lemma dict_get_app_absent (k : string) (d e : pydict) :
  dict_get k d = None -> dict_get k (d ++ e) = dict_get k e.
Proof.
  induction d as [| [k0 v0] r IH]; simpl; intros H.
  - reflexivity.
  - string_cases k k0; [discriminate | auto].
Qed.

Lemma dict_get_in_keys (k : string) (d : pydict) (v : value) :
  dict_get k d = Some v -> In k (dict_keys d).
Proof.
  induction d as [| [k0 v0] r IH]; simpl; intros H.
  - discriminate.
  - string_cases k k0; [now left | right; auto].
Qed.

Lemma dict_keys_set (k : string) (v : value) (d : pydict) (x : string) :
  In x (dict_keys (dict_set k v d)) -> x = k \/ In x (dict_keys d).
Proof.
  induction d as [| [k0 v0] r IH]; simpl.
  - intros [H | []]. now left.
  - string_cases k k0; simpl.
    + intros [H | H]; auto.
    + intros [H | H]; auto. destruct (IH H); auto.
Qed.

(** ** Strings *)

Lemma length_append_sum (s t : string) :
  String.length (s ++ t) = String.length s + String.length t.
Proof.
  induction s as [| c s IH]; simpl; [reflexivity | now rewrite IH].
Qed.

Lemma conflict_key_fresh (k : string) : conflict_key k <> k.
Proof.
  intros H. apply (f_equal String.length) in H.
  unfold conflict_key in H. rewrite length_append_sum in H. simpl in H. lia.
Qed.

Lemma conflict_key_not_name (k : string) : conflict_key k <> "name".
Proof.
  intros H. apply (f_equal String.length) in H.
  unfold conflict_key in H. rewrite length_append_sum in H. simpl in H. lia.
Qed.

(** ** The merger *)

Lemma merge_item_rule (existing : pydict) (key : string) (v : value) :
  merge_rule existing key v (merge_item existing (key, v)).
Proof.
  unfold merge_rule, merge_item.
  destruct (dict_get key existing) as [[s0 | l] |] eqn:G.
  - (* scalar under [key] *)
    assert (K : dict_get key (dict_set (conflict_key key) v existing)
                = Some (Scalar s0)).
    { rewrite dict_get_set_other; [exact G |].
      intros E. symmetry in E. now apply conflict_key_fresh in E. }
    assert (A : agree_except (conflict_key key) existing
                  (dict_set (conflict_key key) v existing)).
    { intros k' Hk. now apply dict_get_set_other. }
    destruct v; repeat split; auto using dict_get_set_same.
  - (* list under [key] *)
    destruct v as [s | l2]; repeat split;
      auto using dict_get_set_same, length_app;
      intros k' Hk; now apply dict_get_set_other.
  - (* [key] absent *)
    destruct v; now apply dict_set_absent.
Qed.

(** C1. [_merge_data existing new] handles the entries of [new] in order,
    each by the rule of the merger on the accumulator as it then is: an
    absent key is inserted as it comes; a list met by a list is extended
    by it, in order, the length being the sum of the two; a list met by a
    scalar gets it appended; a scalar is kept and the incoming value goes
    under the derived key, whatever was there before.  Merging ["X": "a"]
    and then ["X": "b"] gives ["X": "a", "X_conflict": "b"]. *)
Theorem merge_data_follows_rule :
  (forall existing new : pydict,
      merge_run existing new (_merge_data existing new))
  /\ _merge_data (_merge_data [] [("X", Scalar "a")]) [("X", Scalar "b")]
     = [("X", Scalar "a"); ("X_conflict", Scalar "b")].
Proof.
  split; [| reflexivity].
  intros existing new. revert existing.
  induction new as [| [key v] new IH]; intros existing.
  - constructor.
  - apply merge_run_cons with (mid := merge_item existing (key, v)).
    + apply merge_item_rule.
    + apply IH.
Qed.

(** The entries are handled one after the other: a derived key made by
    one entry is met, as a scalar, by a later entry of the same fragment. *)
Example merge_data_in_order :
  _merge_data [("X", Scalar "a")] [("X", Scalar "b"); ("X_conflict", Scalar "c")]
  = [("X", Scalar "a"); ("X_conflict", Scalar "b");
     ("X_conflict_conflict", Scalar "c")].
Proof.
  reflexivity.
Qed.

(** A list is only ever replaced under a derived key. *)
Lemma merge_item_grows (d : pydict) (k : string) (l : list string)
  (kv : string * value) :
  dict_get k d = Some (Seq l) ->
  conflict_key (fst kv) <> k ->
  exists l', dict_get k (merge_item d kv) = Some (Seq (l ++ l')).
Proof.
  destruct kv as [key v]; simpl. intros G Hc.
  destruct (dict_get key d) as [[s0 | l0] |] eqn:Gk.
  - exists []. rewrite app_nil_r, dict_get_set_other; auto.
  - string_cases k key.
    + rewrite Gk in G. injection G as ->.
      destruct v as [s | l2]; rewrite dict_get_set_same; eauto.
    + exists []. rewrite app_nil_r.
      destruct v; rewrite dict_get_set_other; auto.
  - string_cases k key.
    + congruence.
    + exists []. rewrite app_nil_r, dict_get_set_other; auto.
Qed.

Lemma merge_data_grows (new d : pydict) (k : string) (l : list string) :
  dict_get k d = Some (Seq l) ->
  (forall k0, In k0 (dict_keys new) -> conflict_key k0 <> k) ->
  exists l', dict_get k (_merge_data d new) = Some (Seq (l ++ l')).
Proof.
  unfold _merge_data. revert d l.
  induction new as [| kv new IH]; intros d l G Hc; simpl.
  - exists []. now rewrite app_nil_r.
  - destruct (merge_item_grows d k l kv G) as [l1 G1].
    { apply Hc. now left. }
    destruct (IH _ _ G1) as [l2 G2].
    { intros k0 Hin. apply Hc. now right. }
    exists (l1 ++ l2). now rewrite app_assoc.
Qed.

(** C4, as the code has it. Through any sequence of merges, a key that
    holds a list keeps a list of which the earlier one is a prefix, as
    long as no incoming fragment has a key [k0] whose derived key
    ["{k0}_conflict"] is that key. *)
Theorem list_grows_unless_derived_key (news : list pydict) (d : pydict)
  (k : string) (l : list string) :
  dict_get k d = Some (Seq l) ->
  Forall (fun new => forall k0, In k0 (dict_keys new) -> conflict_key k0 <> k)
    news ->
  exists l', dict_get k (fold_left _merge_data news d) = Some (Seq (l ++ l')).
Proof.
  revert d l. induction news as [| new news IH]; intros d l G HF; simpl.
  - exists []. now rewrite app_nil_r.
  - inversion HF as [| ? ? Hnew Hrest]; subst.
    destruct (merge_data_grows new d k l G Hnew) as [l1 G1].
    destruct (IH _ _ G1 Hrest) as [l2 G2].
    exists (l1 ++ l2). now rewrite app_assoc.
Qed.

Lemma list_grows_unless_derived_key_witness :
  exists l',
    dict_get "CAS"
      (fold_left _merge_data
         [[("CAS", Seq ["64-17-5"]); ("Note", Scalar "n")]; [("CAS", Scalar "x")]]
         [("name", Scalar "doc"); ("CAS", Seq ["7732-18-5"])])
    = Some (Seq (["7732-18-5"] ++ l')).
Proof.
  apply (list_grows_unless_derived_key
           [[("CAS", Seq ["64-17-5"]); ("Note", Scalar "n")]; [("CAS", Scalar "x")]]
           [("name", Scalar "doc"); ("CAS", Seq ["7732-18-5"])]
           "CAS" ["7732-18-5"]).
  - reflexivity.
  - repeat constructor; simpl; intros k0 H;
      repeat (destruct H as [<- | H]; [discriminate |]); destruct H.
Defined.

(** C4, as the spec states it, fails: a record reached by merges holds a
    list under ["name_conflict"], and the next merge puts a scalar there. *)
Lemma list_replaced_by_conflict :
  let d := _merge_data [("name", Scalar "doc")] [("name_conflict", Seq ["x"])] in
  dict_get "name_conflict" d = Some (Seq ["x"])
  /\ dict_get "name_conflict" (_merge_data d [("name", Scalar "y")])
     = Some (Scalar "y")
  /\ ~ (forall (news : list pydict) (d : pydict) (k : string) (l : list string),
          dict_get k d = Some (Seq l) ->
          exists l',
            dict_get k (fold_left _merge_data news d) = Some (Seq (l ++ l'))).
Proof.
  simpl. repeat split.
  intros H.
  destruct (H [[("name", Scalar "y")]]
              [("name", Scalar "doc"); ("name_conflict", Seq ["x"])]
              "name_conflict" ["x"] eq_refl) as [l' Hl'].
  discriminate.
Qed.

(** ** White-space normalisation *)

Lemma rstrip_truthy (s : string) :
  PyStr.truthy (PyStr.rstrip s) = has_nonspace s.
Proof.
  induction s as [| c r IH]; simpl; [reflexivity |].
  rewrite IH. destruct (PyStr.isspace c), (has_nonspace r); reflexivity.
Qed.

Lemma rstrip_has_nonspace (s : string) :
  has_nonspace (PyStr.rstrip s) = has_nonspace s.
Proof.
  induction s as [| c r IH]; simpl; [reflexivity |].
  rewrite rstrip_truthy.
  destruct (PyStr.isspace c) eqn:Ec, (has_nonspace r) eqn:Er; simpl;
    rewrite ?Ec, ?IH; reflexivity.
Qed.

Lemma sub_ws_from_has_nonspace (b : bool) (s : string) :
  has_nonspace (PyStr.sub_ws_from b s) = has_nonspace s.
Proof.
  revert b. induction s as [| c r IH]; intros b; simpl; [reflexivity |].
  destruct (PyStr.isspace c) eqn:Ec; [destruct b |]; simpl;
    rewrite ?Ec, ?IH; reflexivity.
Qed.

Lemma lstrip_sub_ws_from (b : bool) (s : string) :
  PyStr.lstrip (PyStr.sub_ws_from b s) = PyStr.sub_ws_from false (PyStr.lstrip s).
Proof.
  revert b. induction s as [| c r IH]; intros b; simpl; [reflexivity |].
  destruct (PyStr.isspace c) eqn:Ec.
  - destruct b; simpl; apply IH.
  - simpl. now rewrite Ec.
Qed.

Lemma rstrip_sub_ws_from (b : bool) (s : string) :
  PyStr.rstrip (PyStr.sub_ws_from b s) = PyStr.sub_ws_from b (PyStr.rstrip s).
Proof.
  revert b. induction s as [| c r IH]; intros b; simpl; [reflexivity |].
  destruct (PyStr.isspace c) eqn:Ec; simpl.
  - rewrite rstrip_truthy.
    destruct (has_nonspace r) eqn:Er; simpl.
    + rewrite Ec. destruct b; simpl; rewrite ?IH; [reflexivity |].
      now rewrite <- IH, rstrip_truthy, sub_ws_from_has_nonspace, Er.
    + destruct b; simpl; rewrite ?rstrip_truthy, ?sub_ws_from_has_nonspace, ?Er.
      * rewrite IH. 
        assert (R : PyStr.rstrip r = EmptyString).
        { generalize (rstrip_truthy r). rewrite Er.
          now destruct (PyStr.rstrip r). }
        now rewrite R.
      * reflexivity.
  - rewrite Ec. now rewrite IH.
Qed.

(** *** The code against the words joined by spaces *)

Lemma is_white_isspace (c : ascii) : is_white c = PyStr.isspace c.
Proof.
  destruct c as [[] [] [] [] [] [] [] []]; reflexivity.
Qed.

Lemma append_empty_r (s : string) : (s ++ "")%string = s.
Proof.
  induction s as [| c s IH]; simpl; [reflexivity | now rewrite IH].
Qed.

Lemma append_char_assoc (w t : string) (c : ascii) :
  ((w ++ String c "") ++ t)%string = (w ++ String c t)%string.
Proof.
  induction w as [| a w IH]; simpl; [reflexivity | now rewrite IH].
Qed.

Lemma append_char_not_empty (w : string) (c : ascii) :
  (w ++ String c "")%string <> EmptyString.
Proof.
  destruct w; discriminate.
Qed.

Lemma words_from_not_empty (s : string) :
  forall w x, In x (words_from w s) -> x <> EmptyString.
Proof.
  induction s as [| c r IH]; intros w x Hin; simpl in Hin.
  - destruct w; [destruct Hin |]. destruct Hin as [<- | []]. discriminate.
  - destruct (is_white c).
    + destruct w as [| a w]; [eauto |].
      destruct Hin as [<- | Hin]; [discriminate | eauto].
    + eauto.
Qed.

Lemma words_from_blank (s : string) :
  has_nonspace s = false -> words_from EmptyString s = [].
Proof.
  induction s as [| c r IH]; intros H; simpl; [reflexivity |].
  simpl in H. apply orb_false_elim in H. destruct H as [Hc Hr].
  rewrite is_white_isspace. apply negb_false_iff in Hc. rewrite Hc. auto.
Qed.

Lemma join_words_cons (w : string) (ws : list string) :
  join_words (w :: ws)
  = match ws with
    | [] => w
    | _ :: _ => (w ++ String " " (join_words ws))%string
    end.
Proof.
  now destruct ws.
Qed.

Lemma join_words_truthy (ws : list string) :
  ws <> [] ->
  (forall x, In x ws -> x <> EmptyString) ->
  PyStr.truthy (join_words ws) = true.
Proof.
  destruct ws as [| w ws]; [congruence |]. intros _ H.
  assert (Hw : w <> EmptyString) by (apply H; now left).
  rewrite join_words_cons. destruct w; [congruence |].
  now destruct ws.
Qed.

(** The words of [s], after a word [w] being read or at the start, against
    the collapse of the runs followed by the trimming on the right. *)
Lemma join_words_sub_ws (s : string) :
  (forall w, w <> EmptyString ->
             join_words (words_from w s)
             = (w ++ PyStr.rstrip (PyStr.sub_ws_from false s))%string)
  /\ join_words (words_from EmptyString s)
     = PyStr.rstrip (PyStr.sub_ws_from true s).
Proof.
  induction s as [| c r [IH1 IH2]].
  - split; [| reflexivity].
    intros w Hw. simpl. destruct w; [congruence |].
    now rewrite append_empty_r.
  - cbn [words_from PyStr.sub_ws_from]. rewrite is_white_isspace.
    destruct (PyStr.isspace c) eqn:Ec.
    + split; [| exact IH2].
      intros w Hw. destruct w as [| a w]; [congruence |].
      rewrite join_words_cons.
      cbn [PyStr.rstrip]. rewrite rstrip_truthy, sub_ws_from_has_nonspace.
      replace (PyStr.isspace " ") with true by reflexivity. cbn [andb].
      destruct (has_nonspace r) eqn:Er.
      * destruct (words_from EmptyString r) as [| x xs] eqn:Ew.
        -- exfalso. simpl in IH2.
           assert (T : PyStr.truthy (PyStr.rstrip (PyStr.sub_ws_from true r))
                       = true)
             by now rewrite rstrip_truthy, sub_ws_from_has_nonspace.
           rewrite <- IH2 in T. discriminate.
        -- cbn [negb]. now rewrite IH2.
      * rewrite (words_from_blank r Er). cbn [negb].
        now rewrite append_empty_r.
    + split.
      * intros w Hw. rewrite IH1 by apply append_char_not_empty.
        cbn [PyStr.rstrip]. rewrite Ec. cbn [andb].
        apply append_char_assoc.
      * cbn [String.append].
        rewrite (IH1 (String c "")) by discriminate.
        cbn [PyStr.rstrip String.append]. now rewrite Ec.
Qed.

Lemma lstrip_sub_ws_true (b : bool) (s : string) :
  PyStr.lstrip (PyStr.sub_ws_from b s) = PyStr.sub_ws_from true s.
Proof.
  revert b. induction s as [| c r IH]; intros b; simpl; [reflexivity |].
  destruct (PyStr.isspace c) eqn:Ec.
  - destruct b; simpl; apply IH.
  - simpl. now rewrite Ec.
Qed.

(** The normalisation of the table cells is the words joined by spaces. *)
Lemma clean_table_cell_normalize (s : string) :
  _clean_table_cell s = normalize s.
Proof.
  unfold _clean_table_cell, normalize, words, PyStr.strip, PyStr.sub_ws.
  rewrite lstrip_sub_ws_true. symmetry. apply join_words_sub_ws.
Qed.

(** The text blocks and the table cells are normalised by one rule:
    trimming before or after the runs are collapsed gives the same. *)
Lemma normalize_line (s : string) :
  PyStr.sub_ws (PyStr.strip s) = normalize s.
Proof.
  rewrite <- clean_table_cell_normalize.
  unfold _clean_table_cell, PyStr.strip, PyStr.sub_ws.
  now rewrite lstrip_sub_ws_from, rstrip_sub_ws_from.
Qed.

Lemma split_nl_not_nil (s : string) : PyStr.split_nl s <> [].
Proof.
  destruct s as [| c r]; simpl; [discriminate |].
  destruct (Ascii.eqb c "010"); [discriminate |].
  destruct (PyStr.split_nl r); discriminate.
Qed.

(** [split('\n')] gives the lines of the text. *)
Lemma split_nl_lines_from (s : string) :
  forall line,
    lines_from line s
    = match PyStr.split_nl s with
      | h :: t => (line ++ h)%string :: t
      | [] => [line]
      end.
Proof.
  induction s as [| c r IH]; intros line; simpl.
  - now rewrite append_empty_r.
  - destruct (Ascii.eqb c "010").
    + rewrite append_empty_r, IH.
      pose proof (split_nl_not_nil r) as N.
      now destruct (PyStr.split_nl r).
    + rewrite IH. destruct (PyStr.split_nl r) as [| h t].
      * reflexivity.
      * now rewrite append_char_assoc.
Qed.

Lemma split_nl_lines_of (s : string) : PyStr.split_nl s = lines_of s.
Proof.
  unfold lines_of. rewrite split_nl_lines_from.
  pose proof (split_nl_not_nil s) as N.
  now destruct (PyStr.split_nl s).
Qed.

Lemma truthy_not_empty (s : string) : PyStr.truthy s = not_empty s.
Proof.
  now destruct s.
Qed.

(** ** Text blocks *)

Lemma pair_induction (A : Type) (P : list A -> Prop) :
  P [] ->
  (forall x, P [x]) ->
  (forall x y l, P l -> P (x :: y :: l)) ->
  forall l, P l.
Proof.
  intros H0 H1 H2.
  assert (H : forall l, P l /\ forall x, P (x :: l)).
  { induction l as [| a l [IHa IHb]]; split; auto. }
  intros l. apply H.
Qed.

Lemma even_index_step (n : nat) :
  n mod 2 = 0 -> (S n mod 2 =? 0) = false /\ S (S n) mod 2 = 0.
Proof.
  intros H.
  pose proof (Nat.div_mod_eq n 2).
  pose proof (Nat.div_mod_eq (S n) 2).
  pose proof (Nat.div_mod_eq (S (S n)) 2).
  pose proof (Nat.mod_upper_bound (S n) 2).
  pose proof (Nat.mod_upper_bound (S (S n)) 2).
  split; [apply Nat.eqb_neq |]; lia.
Qed.

Lemma text_item_key (processed : pydict) (cur : option string) (i : nat)
  (line : string) :
  i mod 2 = 0 -> text_item (processed, cur) (i, line) = (processed, Some line).
Proof.
  intros H. unfold text_item. now rewrite H.
Qed.

Lemma text_item_value (processed : pydict) (k : string) (i : nat)
  (line : string) :
  (i mod 2 =? 0) = false -> PyStr.truthy k = true ->
  text_item (processed, Some k) (i, line)
  = (dict_set k (Scalar line) processed, None).
Proof.
  intros H Hk. unfold text_item. now rewrite H, Hk.
Qed.

(** The loop of [_process_text_block] with its closing test, started at an
    even index, pairs the lines. *)
Lemma text_loop_pairs (lines : list string) :
  Forall (fun l => PyStr.truthy l = true) lines ->
  forall (n : nat) (acc : pydict),
    n mod 2 = 0 ->
    (let '(processed, current_key) :=
       fold_left text_item (combine (seq n (List.length lines)) lines)
         (acc, None) in
     match current_key with
     | Some k =>
         if dict_mem k processed then processed
         else dict_set k (Scalar "") processed
     | None => processed
     end) = pair_lines acc lines.
Proof.
  induction lines as [| k | k v lines IH] using pair_induction;
    intros HF n acc Hn.
  - reflexivity.
  - cbn [List.length seq combine fold_left pair_lines].
    now rewrite text_item_key by exact Hn.
  - inversion HF as [| ? ? Hk HF']; subst.
    inversion HF' as [| ? ? Hv HF'']; subst.
    destruct (even_index_step n Hn) as [H1 H2].
    cbn [List.length seq combine fold_left pair_lines].
    rewrite text_item_key by exact Hn.
    rewrite text_item_value by assumption.
    now apply IH.
Qed.

Lemma text_lines_truthy (text : string) :
  Forall (fun l => PyStr.truthy l = true) (text_lines text).
Proof.
  unfold text_lines. apply Forall_forall. intros l Hl.
  now apply filter_In in Hl.
Qed.

Lemma text_pairs_pair_lines (lines : list string) :
  Forall (fun l => PyStr.truthy l = true) lines ->
  text_pairs lines = pair_lines [] lines.
Proof.
  intros HF. unfold text_pairs, enumerate.
  now apply text_loop_pairs.
Qed.

(** C5. [_process_text_block] splits the text into lines, normalises each
    (its words joined by single spaces), drops the empty ones and pairs
    the rest: the lines of even index are keys, each with the next line
    as value; a last key left alone gets the empty string unless an
    earlier pair already set it.  The lines [Name], [Acme], [Date] give
    ["Name": "Acme", "Date": ""], also when white space and empty lines
    stand around and between them. *)
Theorem process_text_block_pairs :
  (forall text : string,
      _process_text_block text
      = pair_lines []
          (filter not_empty (map normalize (lines_of text))))
  /\ _process_text_block (unlines ["Name"; "Acme"; "Date"])
     = [("Name", Scalar "Acme"); ("Date", Scalar "")]
  /\ _process_text_block
       (unlines ["  Name   of  product "; ""; " Acme"; "   "; "Date  "])
     = [("Name of product", Scalar "Acme"); ("Date", Scalar "")].
Proof.
  split; [| split; reflexivity].
  intros text. unfold _process_text_block.
  rewrite text_pairs_pair_lines by apply text_lines_truthy.
  unfold text_lines. rewrite split_nl_lines_of. f_equal.
  rewrite (map_ext _ normalize normalize_line).
  apply filter_ext. intros l. apply truthy_not_empty.
Qed.

Lemma nth_error_pair_tail {A : Type} (x y : A) (l : list A) (j : nat) :
  nth_error (x :: y :: l) (2 * S j) = nth_error l (2 * j)
  /\ nth_error (x :: y :: l) (2 * S j + 1) = nth_error l (2 * j + 1).
Proof.
  replace (2 * S j) with (S (S (2 * j))) by lia. now split.
Qed.

(** A key with no value after any of its occurrences keeps what it had. *)
Lemma pair_lines_unpaired (k : string) (x : value) (lines : list string) :
  forall acc : pydict,
    (forall j, nth_error lines (2 * j) = Some k ->
               nth_error lines (2 * j + 1) = None) ->
    dict_get k acc = Some x ->
    dict_get k (pair_lines acc lines) = Some x.
Proof.
  induction lines as [| k0 | k0 v0 lines IH] using pair_induction;
    intros acc Hno G.
  - exact G.
  - simpl. unfold dict_mem. string_cases k0 k.
    + now rewrite G.
    + destruct (dict_get k0 acc); [exact G |].
      rewrite dict_get_set_other; auto.
  - cbn [pair_lines]. apply IH.
    + intros j Hj. destruct (nth_error_pair_tail k0 v0 lines j) as [E1 E2].
      rewrite <- E2. apply Hno. now rewrite E1.
    + string_cases k k0.
      * specialize (Hno 0 eq_refl). discriminate.
      * rewrite dict_get_set_other; auto.
Qed.

(** The last pair of a key decides its value. *)
Lemma pair_lines_last_pair (k v : string) (lines : list string) :
  forall (acc : pydict) (j : nat),
    nth_error lines (2 * j) = Some k ->
    nth_error lines (2 * j + 1) = Some v ->
    (forall j', j < j' -> nth_error lines (2 * j') = Some k ->
                nth_error lines (2 * j' + 1) = None) ->
    dict_get k (pair_lines acc lines) = Some (Scalar v).
Proof.
  induction lines as [| k0 | k0 v0 lines IH] using pair_induction;
    intros acc j Hk Hv Hlast.
  - destruct j; discriminate.
  - replace (2 * j + 1) with (S (2 * j)) in Hv by lia.
    cbn [nth_error] in Hv. destruct (2 * j); discriminate.
  - cbn [pair_lines]. destruct j as [| j].
    + simpl in Hk, Hv. injection Hk as ->. injection Hv as ->.
      apply pair_lines_unpaired.
      * intros j Hj. destruct (nth_error_pair_tail k v lines j) as [E1 E2].
        rewrite <- E2. apply Hlast; [lia | now rewrite E1].
      * apply dict_get_set_same.
    + destruct (nth_error_pair_tail k0 v0 lines j) as [E1 E2].
      apply IH with (j := j).
      * now rewrite <- E1.
      * now rewrite <- E2.
      * intros j' Hlt Hj'.
        destruct (nth_error_pair_tail k0 v0 lines j') as [F1 F2].
        rewrite <- F2. apply Hlast; [lia | now rewrite F1].
Qed.

(** Every key comes from a line of even index: no key is derived. *)
Lemma pair_lines_keys (lines : list string) :
  forall (acc : pydict) (key : string),
    In key (dict_keys (pair_lines acc lines)) ->
    In key (dict_keys acc) \/ exists i, nth_error lines (2 * i) = Some key.
Proof.
  induction lines as [| k0 | k0 v0 lines IH] using pair_induction;
    intros acc key Hin.
  - now left.
  - simpl in Hin. destruct (dict_mem k0 acc); [now left |].
    apply dict_keys_set in Hin. destruct Hin as [-> | Hin]; [| now left].
    right. now exists 0.
  - cbn [pair_lines] in Hin. apply IH in Hin.
    destruct Hin as [Hin | [i Hi]].
    + apply dict_keys_set in Hin. destruct Hin as [-> | Hin]; [| now left].
      right. now exists 0.
    + right. exists (S i).
      destruct (nth_error_pair_tail k0 v0 lines i) as [E1 _].
      now rewrite E1.
Qed.

(** C10. Within one text block, when a normalised line is the key of
    several pairs, the fragment holds for it the value of the last of
    these pairs, and every key of the fragment is a line of even index:
    the earlier value is overwritten and no ["_conflict"] key is made. *)
Theorem text_block_last_pair_wins (text k v : string) (j : nat) :
  nth_error (text_lines text) (2 * j) = Some k ->
  nth_error (text_lines text) (2 * j + 1) = Some v ->
  (forall j', j < j' ->
              nth_error (text_lines text) (2 * j') = Some k ->
              nth_error (text_lines text) (2 * j' + 1) = None) ->
  dict_get k (_process_text_block text) = Some (Scalar v)
  /\ forall key, In key (dict_keys (_process_text_block text)) ->
                 exists i, nth_error (text_lines text) (2 * i) = Some key.
Proof.
  intros Hk Hv Hlast. unfold _process_text_block.
  rewrite text_pairs_pair_lines by apply text_lines_truthy.
  split.
  - now apply pair_lines_last_pair with (j := j).
  - intros key Hin. apply pair_lines_keys in Hin.
    destruct Hin as [[] | Hin]. exact Hin.
Qed.

(** ** Tables *)

Lemma truthy_nonempty (s : string) : PyStr.truthy s = true <-> s <> "".
Proof.
  destruct s; simpl; split; intros H; congruence.
Qed.

Lemma nth_error_combine {A B : Type} (l : list A) (l' : list B) (j : nat)
  (a : A) (b : B) :
  nth_error (combine l l') j = Some (a, b)
  <-> nth_error l j = Some a /\ nth_error l' j = Some b.
Proof.
  revert l' j. induction l as [| x l IH]; intros l' j.
  - simpl. split; [destruct j; discriminate | intros [H _]].
    destruct j; discriminate.
  - destruct l' as [| y l']; simpl.
    + split; [destruct j; discriminate | intros [_ H]].
      destruct j; discriminate.
    + destruct j as [| j]; simpl.
      * split; [intros [= -> ->]; auto | intros [[= ->] [= ->]]; auto].
      * apply IH.
Qed.

Lemma zip_star_length {A : Type} (rows : list (list A)) :
  List.length (zip_star rows) = width_of rows.
Proof.
  induction rows as [| r rs IH]; [reflexivity |].
  destruct rs as [| r2 rs].
  - simpl. apply length_map.
  - change (zip_star (r :: r2 :: rs))
      with (map (fun p => fst p :: snd p) (combine r (zip_star (r2 :: rs)))).
    rewrite length_map, length_combine, IH. reflexivity.
Qed.

(** Tuple [j] of [zip( *rows )] is made of the cells of index [j]. *)
Lemma zip_star_nth {A : Type} (d : A) (rows : list (list A)) (j : nat) :
  j < width_of rows ->
  nth_error (zip_star rows) j = Some (map (fun row => nth j row d) rows).
Proof.
  revert j. induction rows as [| r rs IH]; intros j Hj.
  - simpl in Hj. lia.
  - destruct rs as [| r2 rs].
    + simpl in *. rewrite nth_error_map.
      now rewrite (nth_error_nth' r d Hj).
    + change (zip_star (r :: r2 :: rs))
        with (map (fun p => fst p :: snd p) (combine r (zip_star (r2 :: rs)))).
      change (width_of (r :: r2 :: rs))
        with (Nat.min (List.length r) (width_of (r2 :: rs))) in Hj.
      assert (E : nth_error (combine r (zip_star (r2 :: rs))) j
                  = Some (nth j r d, map (fun row => nth j row d) (r2 :: rs))).
      { apply nth_error_combine. split.
        - apply nth_error_nth'. lia.
        - apply IH. lia. }
      rewrite nth_error_map, E. reflexivity.
Qed.

Lemma table_fold_skip (h : string) (pairs : list (string * list cell)) :
  forall acc : pydict,
    (forall j col, nth_error pairs j = Some (h, col) -> False) ->
    dict_get h (fold_left table_entry pairs acc) = dict_get h acc.
Proof.
  induction pairs as [| [h0 col0] pairs IH]; intros acc Hno; simpl.
  - reflexivity.
  - rewrite IH.
    + destruct (PyStr.truthy h0); [| reflexivity].
      apply dict_get_set_other. intros ->. now apply (Hno 0 col0).
    + intros j col Hj. now apply (Hno (S j) col).
Qed.

(** In the dict comprehension the last column of a header is kept. *)
Lemma table_fold_get (pairs : list (string * list cell)) :
  forall (acc : pydict) (j : nat) (h : string) (col : list cell),
    nth_error pairs j = Some (h, col) ->
    PyStr.truthy h = true ->
    (forall j' col', j < j' -> nth_error pairs j' = Some (h, col') -> False) ->
    dict_get h (fold_left table_entry pairs acc)
    = Some (Seq (map (fun c => _clean_table_cell (py_str c)) col)).
Proof.
  induction pairs as [| [h0 col0] pairs IH]; intros acc j h col Hj Ht Hlast.
  - destruct j; discriminate.
  - destruct j as [| j]; simpl in Hj |- *.
    + injection Hj as -> ->. rewrite Ht, table_fold_skip.
      * apply dict_get_set_same.
      * intros j col' Hj. apply (Hlast (S j) col'); [lia | exact Hj].
    + apply IH with (j := j); auto.
      intros j' col' Hlt Hj'. apply (Hlast (S j') col'); [lia | exact Hj'].
Qed.

Lemma table_fold_keys (pairs : list (string * list cell)) :
  forall (acc : pydict) (key : string),
    In key (dict_keys (fold_left table_entry pairs acc)) ->
    In key (dict_keys acc)
    \/ (PyStr.truthy key = true
        /\ exists j col, nth_error pairs j = Some (key, col)).
Proof.
  induction pairs as [| [h0 col0] pairs IH]; intros acc key Hin; simpl in Hin.
  - now left.
  - apply IH in Hin. destruct Hin as [Hin | [Ht [j [col Hj]]]].
    + destruct (PyStr.truthy h0) eqn:Eh; [| now left].
      apply dict_keys_set in Hin. destruct Hin as [-> | Hin]; [| now left].
      right. split; [exact Eh |]. now exists 0, col0.
    + right. split; [exact Ht |]. now exists (S j), col.
Qed.

Lemma process_table_rows (hdr r : list cell) (rest : list (list cell)) :
  _process_table (hdr :: r :: rest)
  = fold_left table_entry
      (combine (headers_of (hdr :: r :: rest)) (zip_star (r :: rest))) [].
Proof.
  unfold headers_of. cbn [hd].
  rewrite <- (map_ext _ _ (fun c => clean_table_cell_normalize (py_str c))).
  reflexivity.
Qed.

(** C6. [_process_table] gives the empty fragment for a grid of fewer than
    two rows.  Otherwise row 0 holds the headers and the other rows are
    transposed: a normalised header that is not empty is mapped to the
    normalised cells of its column, in row order (of the last column of
    that name, a dict having one entry per key), and every key of the
    fragment is such a header, so that an empty header is dropped with its
    column. *)
Theorem process_table_spec (data : list (list cell)) :
  (List.length data < 2 -> _process_table data = [])
  /\ (2 <= List.length data ->
      (forall (j : nat) (h : string),
          nth_error (headers_of data) j = Some h ->
          h <> "" ->
          j < width_of (tl data) ->
          (forall j', j < j' -> j' < width_of (tl data) ->
                      nth_error (headers_of data) j' <> Some h) ->
          dict_get h (_process_table data)
          = Some (Seq (column_of j (tl data))))
      /\ (forall key : string,
             In key (dict_keys (_process_table data)) ->
             key <> ""
             /\ exists j, j < width_of (tl data)
                          /\ nth_error (headers_of data) j = Some key)
      /\ dict_get "" (_process_table data) = None).
Proof.
  split.
  - intros H. unfold _process_table.
    apply Nat.ltb_lt in H. now rewrite H.
  - intros H.
    destruct data as [| hdr [| r rest]]; simpl in H; try lia. clear H.
    rewrite process_table_rows.
    set (headers := headers_of (hdr :: r :: rest)).
    change (tl (hdr :: r :: rest)) with (r :: rest).
    set (rows := r :: rest).
    assert (K : forall key : string,
               In key (dict_keys
                         (fold_left table_entry
                            (combine headers (zip_star rows)) [])) ->
               key <> ""
               /\ exists j, j < width_of rows
                            /\ nth_error headers j = Some key).
    { intros key Hin. apply table_fold_keys in Hin.
      destruct Hin as [[] | [Ht [j [col Hj]]]].
      split; [now apply truthy_nonempty |].
      apply nth_error_combine in Hj. destruct Hj as [Hh Hc].
      exists j. split; [| exact Hh].
      rewrite <- zip_star_length. apply nth_error_Some. congruence. }
    split; [| split].
    + intros j h Hh Hne Hj Hlast.
      rewrite table_fold_get
        with (j := j) (col := map (fun row => nth j row None) rows).
      * unfold column_of. rewrite map_map. do 2 f_equal.
        apply map_ext. intros row. apply clean_table_cell_normalize.
      * apply nth_error_combine. split; [exact Hh |].
        now apply zip_star_nth.
      * now apply truthy_nonempty.
      * intros j' col' Hlt Hj'.
        apply nth_error_combine in Hj'. destruct Hj' as [Hh' Hc'].
        apply (Hlast j' Hlt); [| exact Hh'].
        rewrite <- zip_star_length. apply nth_error_Some. congruence.
    + exact K.
    + destruct (dict_get "" (fold_left table_entry
                               (combine headers (zip_star rows)) []))
        as [v |] eqn:G; [| reflexivity].
      apply dict_get_in_keys, K in G. now destruct G as [G _].
Qed.

(** ** The region between the markers *)

(** C7. When both searches return, [_calculate_subsection_bbox] gives
    [None] if either found no rectangle, and otherwise the rectangle from
    0 to the page width, between the bottom of the first rectangle of the
    start marker and the top of the first rectangle of the stop marker;
    nothing is asked of the two ordinates. *)
Theorem calculate_subsection_bbox_spec (page : Page) (markers : Markers)
  (start_rects stop_rects : list Rect) :
  search_for page (Some (start_marker markers)) = Found start_rects ->
  search_for page (stop_marker markers) = Found stop_rects ->
  (start_rects = [] \/ stop_rects = [] ->
   _calculate_subsection_bbox page markers = inr None)
  /\ (forall s ss t ts,
         start_rects = s :: ss -> stop_rects = t :: ts ->
         _calculate_subsection_bbox page markers
         = inr (Some (mkRect 0 (y1 s) (page_width page) (y0 t)))).
Proof.
  intros Hs Ht. unfold _calculate_subsection_bbox. rewrite Hs, Ht.
  split.
  - intros [-> | ->]; [reflexivity | now destruct start_rects].
  - intros s ss t ts -> ->. reflexivity.
Qed.

(** On [page_upside_down] the region found ends above its beginning. *)
Lemma calculate_subsection_bbox_spec_witness :
  _calculate_subsection_bbox page_upside_down
    (mkMarkers "SECTION 14" (Some "Section 15 - Other Info"))
  = inr (Some (mkRect 0 312 595 100))
  /\ _calculate_subsection_bbox page_upside_down (mkMarkers "SECTION 14" None)
     = inr None.
Proof.
  split.
  - apply (calculate_subsection_bbox_spec page_upside_down
             (mkMarkers "SECTION 14" (Some "Section 15 - Other Info"))
             [mkRect 72 300 200 312]
             [mkRect 72 100 250 112; mkRect 72 400 250 412]
             eq_refl eq_refl)
      with (s := mkRect 72 300 200 312) (ss := [])
           (t := mkRect 72 100 250 112) (ts := [mkRect 72 400 250 412]);
      reflexivity.
  - apply (calculate_subsection_bbox_spec page_upside_down
             (mkMarkers "SECTION 14" None)
             [mkRect 72 300 200 312] [] eq_refl eq_refl).
    now right.
Defined.

(** ** The pipeline *)

Section PipelineProperties.

Variable rect_truth : Rect -> bool.
Variable intersects : Rect -> Rect -> bool.

Lemma table_turns (tables : list Table) :
  forall (content : pydict) (zones : list Rect),
    fold_left table_turn tables (content, zones)
    = (fold_left
         (fun c t => _merge_data c (_process_table (extract t)))
         tables content,
       zones ++ map bbox tables).
Proof.
  induction tables as [| t tables IH]; intros content zones; simpl.
  - now rewrite app_nil_r.
  - rewrite IH. now rewrite <- app_assoc.
Qed.

Lemma block_turn_excluded (zones : list Rect) (content : pydict)
  (block : Block) :
  existsb (fun zone => intersects (block_rect block) zone) zones = true ->
  block_turn intersects zones content block = content.
Proof.
  intros H. unfold block_turn. rewrite H. now rewrite orb_true_r.
Qed.

(** C8. A text block whose rectangle intersects the box of a table found
    in the region adds nothing to the fragment of the page: the page
    gives the same fragment with and without that block, whatever its
    text. *)
Theorem block_over_table_adds_nothing (page page' : Page) (region : Rect)
  (before after : list Block) (block : Block) (table : Table) :
  find_tables page' region = find_tables page region ->
  get_blocks page region = before ++ block :: after ->
  get_blocks page' region = before ++ after ->
  In table (find_tables page region) ->
  intersects (block_rect block) (bbox table) = true ->
  _process_page_content intersects page region
  = _process_page_content intersects page' region.
Proof.
  intros Ht Hb Hb' Hin Hx. unfold _process_page_content.
  rewrite Ht, Hb, Hb', table_turns.
  rewrite !fold_left_app. cbn [fold_left].
  rewrite block_turn_excluded; [reflexivity |].
  apply existsb_exists. exists (bbox table). split; [| exact Hx].
  simpl. now apply in_map.
Qed.

(** ** The name of the record *)

Lemma merge_item_keeps_scalar (d : pydict) (k s : string)
  (kv : string * value) :
  (forall k0, conflict_key k0 <> k) ->
  dict_get k d = Some (Scalar s) ->
  dict_get k (merge_item d kv) = Some (Scalar s).
Proof.
  intros Hk G. destruct kv as [key v]. unfold merge_item.
  destruct (dict_get key d) as [[s0 | l0] |] eqn:Gk.
  - rewrite dict_get_set_other; auto.
  - assert (k <> key) by congruence.
    destruct v; rewrite dict_get_set_other; auto.
  - assert (k <> key) by congruence.
    rewrite dict_get_set_other; auto.
Qed.

Lemma merge_data_keeps_scalar (new d : pydict) (k s : string) :
  (forall k0, conflict_key k0 <> k) ->
  dict_get k d = Some (Scalar s) ->
  dict_get k (_merge_data d new) = Some (Scalar s).
Proof.
  intros Hk. unfold _merge_data. revert d.
  induction new as [| kv new IH]; intros d G; simpl; [exact G |].
  apply IH. now apply merge_item_keeps_scalar.
Qed.

Lemma extract_pages_keeps_name (self : TextPDFParser) (ps : list Page) :
  forall (result record : pydict) (s : string),
    dict_get "name" result = Some (Scalar s) ->
    extract_pages rect_truth intersects self ps result = inr record ->
    dict_get "name" record = Some (Scalar s).
Proof.
  induction ps as [| page rest IH]; intros result record s G H; simpl in H.
  - now injection H as <-.
  - destruct (negb (PyStr.isearch (pat_section self) (get_text page)));
      [eauto |].
    destruct (_find_section_boundaries self page) as [markers |]; [| eauto].
    destruct (_calculate_subsection_bbox page markers) as [e | [region |]];
      [discriminate | | eauto].
    destruct (negb (rect_truth region)); [eauto |].
    apply IH with (s := s) in H; [exact H |].
    apply merge_data_keeps_scalar; [apply conflict_key_not_name | exact G].
Qed.

(** ** Documents without the section *)

Lemma extract_pages_no_match (self : TextPDFParser) (ps : list Page)
  (result : pydict) :
  (forall page, In page ps ->
                PyStr.isearch (pat_section self) (get_text page) = false) ->
  extract_pages rect_truth intersects self ps result = inr result.
Proof.
  induction ps as [| page rest IH]; intros H; simpl; [reflexivity |].
  rewrite (H page) by now left. simpl. apply IH.
  intros p Hp. apply H. now right.
Qed.

(** C3, on the code. When no page matches the section pattern,
    [extract_section] returns the record with the [name] field alone,
    and [main], which tests that record for emptiness, exports it and
    ends normally: the branch that exits with code 1 is not taken. *)
Theorem main_exports_name_only (cfg : option string) (doc : Document) :
  (forall page, In page (pages doc) ->
                PyStr.isearch (pat_section (__init__ cfg)) (get_text page)
                = false) ->
  extract_section rect_truth intersects (__init__ cfg) doc
  = inr [("name", Scalar (PyStr.replace_del ".pdf" (doc_name doc)))]
  /\ main rect_truth intersects (inr cfg) (inr doc)
     = Exit0 (Some [["name"]; [PyStr.replace_del ".pdf" (doc_name doc)]]).
Proof.
  intros H.
  assert (E : extract_section rect_truth intersects (__init__ cfg) doc
              = inr [("name",
                      Scalar (PyStr.replace_del ".pdf" (doc_name doc)))]).
  { unfold extract_section. now apply extract_pages_no_match. }
  split; [exact E |].
  unfold main. rewrite E. reflexivity.
Qed.

(** ** Pages with a start marker and no stop marker *)

Lemma find_boundaries_no_stop (self : TextPDFParser)
  (before after : list string) (line : string) :
  Forall (fun l => PyStr.isearch (pat_section self) l = false) before ->
  PyStr.isearch (pat_section self) line = true ->
  Forall (fun l => PyStr.isearch (pat_base_section self) l = false) after ->
  find_boundaries self (before ++ line :: after)
  = Some {| start_marker := line; stop_marker := None |}.
Proof.
  intros Hb Hl Ha. induction Hb as [| l before Hl0 Hb IH]; simpl.
  - rewrite Hl. do 2 f_equal.
    induction Ha as [| a after Ha0 Ha IH]; simpl; [reflexivity |].
    now rewrite Ha0.
  - now rewrite Hl0.
Qed.

(** On such a page the search is given [None]; the extraction ends when
    that search raises anything but [KeyError], the one exception that
    the region calculator handles. *)
Lemma extract_pages_raises_without_stop (self : TextPDFParser) (page : Page)
  (rest : list Page) (result : pydict) (line name : string)
  (start_rects : list Rect) :
  PyStr.isearch (pat_section self) (get_text page) = true ->
  _find_section_boundaries self page
  = Some {| start_marker := line; stop_marker := None |} ->
  search_for page (Some line) = Found start_rects ->
  search_for page None = Raised (OtherError name) ->
  extract_pages rect_truth intersects self (page :: rest) result
  = inl (OtherError name).
Proof.
  intros Hp Hm Hs Hn. simpl. rewrite Hp. simpl.
  rewrite Hm. unfold _calculate_subsection_bbox. simpl.
  now rewrite Hs, Hn.
Qed.

End PipelineProperties.

(** ** The properties on the sample inputs *)

Lemma text_block_last_pair_wins_witness :
  dict_get "A" (_process_text_block sample_block_text) = Some (Scalar "3")
  /\ forall key,
       In key (dict_keys (_process_text_block sample_block_text)) ->
       exists i, nth_error (text_lines sample_block_text) (2 * i) = Some key.
Proof.
  apply (text_block_last_pair_wins sample_block_text "A" "3" 2).
  - reflexivity.
  - reflexivity.
  - intros j' Hlt _. apply nth_error_None.
    assert (L : List.length (text_lines sample_block_text) = 7)
      by reflexivity.
    rewrite L. lia.
Defined.

Lemma process_table_spec_witness :
  _process_table [[Some "Ingredient"; Some "CAS"]] = []
  /\ dict_get "A x" (_process_table untidy_grid) = Some (Seq ["1"])
  /\ dict_get "B" (_process_table untidy_grid) = Some (Seq ["b c"])
  /\ dict_get "" (_process_table untidy_grid) = None.
Proof.
  assert (W : width_of (tl untidy_grid) = 3) by reflexivity.
  assert (L : 2 <= List.length untidy_grid) by (simpl; lia).
  split; [| split; [| split]].
  - apply (proj1 (process_table_spec [[Some "Ingredient"; Some "CAS"]])).
    simpl. lia.
  - apply (proj1 (proj2 (process_table_spec untidy_grid) L) 0 "A x").
    + reflexivity.
    + discriminate.
    + rewrite W. lia.
    + intros j' H1 H2. rewrite W in H2.
      destruct j' as [| [| [| j']]]; try lia; discriminate.
  - apply (proj1 (proj2 (process_table_spec untidy_grid) L) 2 "B").
    + reflexivity.
    + discriminate.
    + rewrite W. lia.
    + intros j' H1 H2. rewrite W in H2. lia.
  - apply (proj2 (proj2 (proj2 (process_table_spec untidy_grid) L))).
Defined.

Lemma block_over_table_adds_nothing_witness :
  _process_page_content sample_intersects sample_page (mkRect 0 112 595 300)
  = _process_page_content sample_intersects sample_page_less
      (mkRect 0 112 595 300).
Proof.
  apply (block_over_table_adds_nothing sample_intersects
           sample_page sample_page_less (mkRect 0 112 595 300)
           [] [block_below_table] block_in_table sample_table).
  - reflexivity.
  - reflexivity.
  - reflexivity.
  - simpl. now left.
  - reflexivity.
Defined.

(** C9, on the code. The record keeps as [name] the name of the document
    with every [.pdf] deleted, which is not the file name without its
    extension: of the document [sheet.pdf.pdf] it keeps [sheet], where the
    file name without its extension is [sheet.pdf]. *)
Theorem name_loses_every_pdf :
  extract_section sample_rect_truth sample_intersects (__init__ None)
    doc_two_extensions
  = inr [("name", Scalar "sheet")]
  /\ file_stem (doc_name doc_two_extensions) = "sheet.pdf"
  /\ ~ (forall (rect_truth : Rect -> bool) (intersects : Rect -> Rect -> bool)
               (self : TextPDFParser) (doc : Document) (record : pydict),
           extract_section rect_truth intersects self doc = inr record ->
           dict_get "name" record
           = Some (Scalar (file_stem (doc_name doc)))).
Proof.
  repeat split.
  intros H.
  specialize (H sample_rect_truth sample_intersects (__init__ None)
                doc_two_extensions [("name", Scalar "sheet")] eq_refl).
  discriminate.
Qed.

(** The name keeps the directory of the path and an extension in upper
    case. *)
Example name_keeps_directory :
  extract_section sample_rect_truth sample_intersects (__init__ None)
    doc_in_directory
  = inr [("name", Scalar "sub/sheet")]
  /\ file_stem (doc_name doc_in_directory) = "sheet"
  /\ file_stem (doc_name doc_upper_case) = "sheet".
Proof.
  repeat split.
Qed.

Lemma main_exports_name_only_witness :
  extract_section sample_rect_truth sample_intersects (__init__ None)
    doc_without_section
  = inr [("name", Scalar "sheet")]
  /\ main sample_rect_truth sample_intersects (inr None)
       (inr doc_without_section)
     = Exit0 (Some [["name"]; ["sheet"]]).
Proof.
  apply (main_exports_name_only sample_rect_truth sample_intersects
           None doc_without_section).
  intros page [<- | [<- | []]]; reflexivity.
Defined.

(** The end-to-end example: the table between the markers is extracted,
    the block laid over it is not, the block below it is paired. *)
Example extract_sample_doc :
  extract_section sample_rect_truth sample_intersects (__init__ None)
    sample_doc
  = inr [("name", Scalar "sheet"); ("Ingredient", Seq ["Water"]);
         ("CAS", Seq ["7732-18-5"]); ("Name", Scalar "Acme");
         ("Date", Scalar "")].
Proof.
  reflexivity.
Qed.

(** * Further properties of the parser *)

(** ** Normalised strings *)

Lemma sub_ws_from_twice (b : bool) (s : string) :
  PyStr.sub_ws_from b (PyStr.sub_ws_from b s) = PyStr.sub_ws_from b s.
Proof.
  revert b. induction s as [| c r IH]; intros b; simpl; [reflexivity |].
  destruct (PyStr.isspace c) eqn:Ec.
  - destruct b; [apply IH |].
    cbn [PyStr.sub_ws_from].
    replace (PyStr.isspace " ") with true by reflexivity.
    now rewrite IH.
  - cbn [PyStr.sub_ws_from]. rewrite Ec. now rewrite IH.
Qed.

Lemma lstrip_has_nonspace (s : string) :
  has_nonspace (PyStr.lstrip s) = has_nonspace s.
Proof.
  induction s as [| c r IH]; simpl; [reflexivity |].
  destruct (PyStr.isspace c) eqn:Ec; simpl; [exact IH | now rewrite Ec].
Qed.

Lemma rstrip_blank (s : string) :
  has_nonspace s = false -> PyStr.rstrip s = EmptyString.
Proof.
  intros H. generalize (rstrip_truthy s). rewrite H.
  now destruct (PyStr.rstrip s).
Qed.

Lemma lstrip_twice (s : string) :
  PyStr.lstrip (PyStr.lstrip s) = PyStr.lstrip s.
Proof.
  induction s as [| c r IH]; simpl; [reflexivity |].
  destruct (PyStr.isspace c) eqn:Ec; [exact IH |]. simpl. now rewrite Ec.
Qed.

Lemma rstrip_twice (s : string) :
  PyStr.rstrip (PyStr.rstrip s) = PyStr.rstrip s.
Proof.
  induction s as [| c r IH]; simpl; [reflexivity |].
  destruct (PyStr.isspace c && negb (PyStr.truthy (PyStr.rstrip r))) eqn:E.
  - reflexivity.
  - simpl. rewrite IH, E. reflexivity.
Qed.

Lemma lstrip_rstrip (s : string) :
  PyStr.lstrip (PyStr.rstrip s) = PyStr.rstrip (PyStr.lstrip s).
Proof.
  induction s as [| c r IH]; simpl; [reflexivity |].
  rewrite rstrip_truthy.
  destruct (PyStr.isspace c) eqn:Ec; simpl.
  - destruct (has_nonspace r) eqn:Er; simpl.
    + now rewrite Ec.
    + symmetry. apply rstrip_blank. now rewrite lstrip_has_nonspace.
  - rewrite ?Ec. simpl. rewrite ?Ec. reflexivity.
Qed.

Lemma strip_twice (s : string) : PyStr.strip (PyStr.strip s) = PyStr.strip s.
Proof.
  unfold PyStr.strip.
  now rewrite lstrip_rstrip, lstrip_twice, rstrip_twice.
Qed.

Lemma clean_table_cell_twice (s : string) :
  _clean_table_cell (_clean_table_cell s) = _clean_table_cell s.
Proof.
  unfold _clean_table_cell at 1 2.
  rewrite (normalize_line (PyStr.sub_ws s)), <- clean_table_cell_normalize.
  unfold _clean_table_cell.
  rewrite strip_twice. unfold PyStr.sub_ws.
  now rewrite sub_ws_from_twice.
Qed.

Lemma normalize_twice (s : string) : normalize (normalize s) = normalize s.
Proof.
  rewrite <- !clean_table_cell_normalize. apply clean_table_cell_twice.
Qed.

(** X24. A normalised cell is left as it is by the normalisation and by
    each of its two steps: it has no white space at its ends, and no
    white space inside but single spaces. *)
Theorem clean_table_cell_idempotent (cell : string) :
  _clean_table_cell (_clean_table_cell cell) = _clean_table_cell cell
  /\ PyStr.strip (_clean_table_cell cell) = _clean_table_cell cell
  /\ PyStr.sub_ws (_clean_table_cell cell) = _clean_table_cell cell.
Proof.
  split; [apply clean_table_cell_twice | split].
  - unfold _clean_table_cell. apply strip_twice.
  - unfold _clean_table_cell at 1.
    rewrite (normalize_line (PyStr.sub_ws cell)), <- clean_table_cell_normalize.
    unfold _clean_table_cell, PyStr.sub_ws.
    now rewrite sub_ws_from_twice.
Qed.

(** ** More on the merger *)

Lemma dict_get_none_keys (k : string) (d : pydict) :
  dict_get k d = None <-> ~ In k (dict_keys d).
Proof.
  induction d as [| [k0 v0] r IH]; simpl.
  - split; auto.
  - string_cases k k0.
    + split; [discriminate | intros H; exfalso; apply H; now left].
    + rewrite IH. split.
      * intros H [H1 | H1]; [congruence | auto].
      * intros H H1. apply H. now right.
Qed.

Lemma dict_keys_of_set (k : string) (v : value) (d : pydict) :
  dict_keys (dict_set k v d)
  = if dict_mem k d then dict_keys d else dict_keys d ++ [k].
Proof.
  unfold dict_mem. induction d as [| [k0 v0] r IH]; simpl; [reflexivity |].
  string_cases k k0; simpl; [reflexivity |].
  rewrite IH. now destruct (dict_get k r).
Qed.

Lemma dict_set_nodup (k : string) (v : value) (d : pydict) :
  NoDup (dict_keys d) -> NoDup (dict_keys (dict_set k v d)).
Proof.
  intros H. rewrite dict_keys_of_set. unfold dict_mem.
  destruct (dict_get k d) eqn:G; [exact H |].
  apply dict_get_none_keys in G.
  apply NoDup_app; repeat constructor; auto.
  intros x Hx [<- | []]. auto.
Qed.

Lemma merge_item_nodup (d : pydict) (kv : string * value) :
  NoDup (dict_keys d) -> NoDup (dict_keys (merge_item d kv)).
Proof.
  intros H. destruct kv as [key v]. unfold merge_item.
  destruct (dict_get key d) as [[s0 | l0] |]; [| destruct v |];
    now apply dict_set_nodup.
Qed.

Lemma merge_data_nodup (new d : pydict) :
  NoDup (dict_keys d) -> NoDup (dict_keys (_merge_data d new)).
Proof.
  unfold _merge_data. revert d.
  induction new as [| kv new IH]; intros d H; simpl; [exact H |].
  apply IH. now apply merge_item_nodup.
Qed.

(** The keys that one entry adds: none, the key, or its derived key. *)
Lemma merge_item_keys (d : pydict) (kv : string * value) :
  exists added,
    dict_keys (merge_item d kv) = dict_keys d ++ added
    /\ forall k, In k added -> k = fst kv \/ k = conflict_key (fst kv).
Proof.
  destruct kv as [key v]. unfold merge_item.
  assert (S : forall k' v',
             k' = key \/ k' = conflict_key key ->
             exists added,
               dict_keys (dict_set k' v' d) = dict_keys d ++ added
               /\ forall k, In k added -> k = key \/ k = conflict_key key).
  { intros k' v' Hk. rewrite dict_keys_of_set.
    destruct (dict_mem k' d).
    - exists []. rewrite app_nil_r. split; [reflexivity | intros k []].
    - exists [k']. split; [reflexivity |]. intros k [<- | []]. exact Hk. }
  destruct (dict_get key d) as [[s0 | l0] |]; [| destruct v |];
    apply S; auto.
Qed.

(** X1. [_merge_data] never drops nor moves a key of the accumulator: its
    keys stay first and in order, and every key added after them is a key
    of the incoming fragment or the derived key of one. *)
Theorem merge_data_keeps_keys (existing new : pydict) :
  exists added,
    dict_keys (_merge_data existing new) = dict_keys existing ++ added
    /\ forall k, In k added ->
                 In k (dict_keys new)
                 \/ exists k0, In k0 (dict_keys new) /\ k = conflict_key k0.
Proof.
  unfold _merge_data. revert existing.
  induction new as [| kv new IH]; intros existing; simpl.
  - exists []. rewrite app_nil_r. split; [reflexivity | intros k []].
  - destruct (merge_item_keys existing kv) as [a1 [E1 H1]].
    destruct (IH (merge_item existing kv)) as [a2 [E2 H2]].
    exists (a1 ++ a2). split.
    + rewrite E2, E1. now rewrite app_assoc.
    + intros k Hk. apply in_app_or in Hk. destruct Hk as [Hk | Hk].
      * destruct (H1 k Hk) as [-> | ->]; [left; now left |].
        right. exists (fst kv). split; [now left | reflexivity].
      * destruct (H2 k Hk) as [Hin | [k0 [Hin ->]]].
        -- left. now right.
        -- right. exists k0. split; [now right | reflexivity].
Qed.

(** X2. A fragment whose keys are distinct and all absent from the
    accumulator is appended to it as it is, entry after entry. *)
Theorem merge_data_fresh_keys (new existing : pydict) :
  NoDup (dict_keys new) ->
  (forall k, In k (dict_keys new) -> dict_get k existing = None) ->
  _merge_data existing new = existing ++ new.
Proof.
  unfold _merge_data. revert existing.
  induction new as [| [key v] new IH]; intros existing Hnd Hfresh; simpl.
  - now rewrite app_nil_r.
  - inversion Hnd as [| ? ? Hnotin Hnd']; subst.
    rewrite (Hfresh key) by now left.
    rewrite dict_set_absent by (apply Hfresh; now left).
    rewrite IH; [now rewrite <- app_assoc | exact Hnd' |].
    intros k Hk. rewrite dict_get_app_absent by (apply Hfresh; now right).
    simpl. string_cases k key; [contradiction | reflexivity].
Qed.

Lemma merge_data_fresh_keys_witness :
  _merge_data [("name", Scalar "sheet")]
    [("Ingredient", Seq ["Water"]); ("CAS", Seq ["7732-18-5"])]
  = [("name", Scalar "sheet")]
    ++ [("Ingredient", Seq ["Water"]); ("CAS", Seq ["7732-18-5"])].
Proof.
  apply (merge_data_fresh_keys
           [("Ingredient", Seq ["Water"]); ("CAS", Seq ["7732-18-5"])]
           [("name", Scalar "sheet")]).
  - repeat constructor; simpl; intros H;
      repeat (destruct H as [H | H]; [discriminate |]); destruct H.
  - simpl. intros k [<- | [<- | []]]; reflexivity.
Defined.

Lemma merge_item_keeps_scalar_at (d : pydict) (k s : string)
  (kv : string * value) :
  conflict_key (fst kv) <> k ->
  dict_get k d = Some (Scalar s) ->
  dict_get k (merge_item d kv) = Some (Scalar s).
Proof.
  destruct kv as [key v]; simpl. intros Hk G. unfold merge_item.
  destruct (dict_get key d) as [[s0 | l0] |] eqn:Gk.
  - rewrite dict_get_set_other; auto.
  - assert (k <> key) by congruence.
    destruct v; rewrite dict_get_set_other; auto.
  - assert (k <> key) by congruence.
    rewrite dict_get_set_other; auto.
Qed.

Lemma merge_data_keeps_scalar_at (new d : pydict) (k s : string) :
  (forall k0, In k0 (dict_keys new) -> conflict_key k0 <> k) ->
  dict_get k d = Some (Scalar s) ->
  dict_get k (_merge_data d new) = Some (Scalar s).
Proof.
  unfold _merge_data. revert d.
  induction new as [| kv new IH]; intros d Hk G; simpl; [exact G |].
  apply IH.
  - intros k0 Hin. apply Hk. now right.
  - apply merge_item_keeps_scalar_at; [apply Hk; now left | exact G].
Qed.

(** X3. Through any sequence of merges a key that holds a scalar keeps
    that very scalar, as long as no incoming fragment has a key whose
    derived key it is: an incoming value for the key itself never
    replaces it. *)
Theorem scalar_kept_through_merges (news : list pydict) (d : pydict)
  (k s : string) :
  dict_get k d = Some (Scalar s) ->
  Forall (fun new => forall k0, In k0 (dict_keys new) -> conflict_key k0 <> k)
    news ->
  dict_get k (fold_left _merge_data news d) = Some (Scalar s).
Proof.
  revert d. induction news as [| new news IH]; intros d G HF; simpl.
  - exact G.
  - inversion HF as [| ? ? Hnew Hrest]; subst.
    apply IH; [| exact Hrest].
    now apply merge_data_keeps_scalar_at.
Qed.

Lemma scalar_kept_through_merges_witness :
  dict_get "Name"
    (fold_left _merge_data
       [[("Name", Scalar "Other")]; [("Name", Seq ["a"; "b"])]]
       [("name", Scalar "sheet"); ("Name", Scalar "Acme")])
  = Some (Scalar "Acme").
Proof.
  apply (scalar_kept_through_merges
           [[("Name", Scalar "Other")]; [("Name", Seq ["a"; "b"])]]
           [("name", Scalar "sheet"); ("Name", Scalar "Acme")]
           "Name" "Acme").
  - reflexivity.
  - repeat constructor; simpl; intros k0 H;
      repeat (destruct H as [<- | H]; [discriminate |]); destruct H.
Defined.

(** ** The shape of the fragments *)

Lemma zip_star_tuple_length {A : Type} (rows : list (list A)) :
  forall col, In col (zip_star rows) -> List.length col = List.length rows.
Proof.
  induction rows as [| r rs IH]; intros col Hin; [destruct Hin |].
  destruct rs as [| r2 rs].
  - simpl in Hin. apply in_map_iff in Hin. now destruct Hin as [x [<- _]].
  - change (zip_star (r :: r2 :: rs))
      with (map (fun p => fst p :: snd p) (combine r (zip_star (r2 :: rs))))
      in Hin.
    apply in_map_iff in Hin. destruct Hin as [[x c] [<- Hin]].
    apply in_combine_r in Hin. simpl. f_equal. now apply IH.
Qed.

Lemma table_fold_values (pairs : list (string * list cell)) :
  forall (acc : pydict) (key : string) (v : value),
    dict_get key (fold_left table_entry pairs acc) = Some v ->
    dict_get key acc = Some v
    \/ exists h col,
         In (h, col) pairs
         /\ v = Seq (map (fun c => _clean_table_cell (py_str c)) col).
Proof.
  induction pairs as [| [h0 col0] pairs IH]; intros acc key v G; simpl in G.
  - now left.
  - apply IH in G. destruct G as [G | [h [col [Hin ->]]]].
    + destruct (PyStr.truthy h0); [| now left].
      string_cases key h0.
      * rewrite dict_get_set_same in G. injection G as <-.
        right. exists h0, col0. split; [now left | reflexivity].
      * rewrite dict_get_set_other in G by exact E. now left.
    + right. exists h, col. split; [now right | reflexivity].
Qed.

(** X4. Every value of the fragment of a table is a list with one cell
    per data row, each cell normalised: the columns of one table have the
    same length. *)
Theorem process_table_columns (data : list (list cell)) (key : string)
  (v : value) :
  dict_get key (_process_table data) = Some v ->
  exists l,
    v = Seq l
    /\ List.length l = List.length data - 1
    /\ Forall (fun c => _clean_table_cell c = c) l.
Proof.
  intros G. destruct data as [| hdr [| r rest]]; try discriminate.
  rewrite process_table_rows in G. apply table_fold_values in G.
  destruct G as [G | [h [col [Hin ->]]]]; [discriminate |].
  apply in_combine_r, zip_star_tuple_length in Hin.
  eexists. split; [reflexivity | split].
  - rewrite length_map, Hin. simpl. lia.
  - apply Forall_forall. intros c Hc. apply in_map_iff in Hc.
    destruct Hc as [x [<- _]]. apply clean_table_cell_twice.
Qed.

Lemma process_table_columns_witness :
  exists l,
    Seq ["7732-18-5"] = Seq l
    /\ List.length l = List.length sample_grid - 1
    /\ Forall (fun c => _clean_table_cell c = c) l.
Proof.
  apply (process_table_columns sample_grid "CAS" (Seq ["7732-18-5"])).
  reflexivity.
Defined.

Lemma pair_lines_values (lines : list string) :
  forall (acc : pydict) (k : string) (v : value),
    dict_get k (pair_lines acc lines) = Some v ->
    dict_get k acc = Some v
    \/ v = Scalar ""
    \/ exists s, In s lines /\ v = Scalar s.
Proof.
  induction lines as [| k0 | k0 v0 lines IH] using pair_induction;
    intros acc k v G.
  - now left.
  - simpl in G. destruct (dict_mem k0 acc); [now left |].
    string_cases k k0.
    + rewrite dict_get_set_same in G. injection G as <-. right. now left.
    + rewrite dict_get_set_other in G by exact E. now left.
  - cbn [pair_lines] in G. apply IH in G.
    destruct G as [G | [G | [s [Hin ->]]]].
    + string_cases k k0.
      * rewrite dict_get_set_same in G. injection G as <-.
        right. right. exists v0. split; [right; now left | reflexivity].
      * rewrite dict_get_set_other in G by exact E. now left.
    + right. now left.
    + right. right. exists s. split; [right; now right | reflexivity].
Qed.

Lemma text_lines_normal (text line : string) :
  In line (text_lines text) -> line <> "" /\ normalize line = line.
Proof.
  unfold text_lines. intros H. apply filter_In in H. destruct H as [H Ht].
  split; [now apply truthy_nonempty |].
  apply in_map_iff in H. destruct H as [l [<- _]].
  rewrite normalize_line. apply normalize_twice.
Qed.

(** X5. In the fragment of a text block every key is a non-empty
    normalised line, and every value is a scalar, normalised as well (a
    line of the block, or the empty string). *)
Theorem process_text_block_entries (text k : string) (v : value) :
  dict_get k (_process_text_block text) = Some v ->
  k <> "" /\ normalize k = k
  /\ exists s, v = Scalar s /\ normalize s = s.
Proof.
  intros G. unfold _process_text_block in G.
  rewrite text_pairs_pair_lines in G by apply text_lines_truthy.
  assert (Hk : In k (text_lines text)).
  { pose proof (dict_get_in_keys _ _ _ G) as Hin.
    apply pair_lines_keys in Hin. destruct Hin as [[] | [i Hi]].
    eapply nth_error_In; eauto. }
  apply text_lines_normal in Hk. destruct Hk as [Hne Hn].
  split; [exact Hne | split; [exact Hn |]].
  apply pair_lines_values in G.
  destruct G as [G | [-> | [s [Hin ->]]]]; [discriminate | |].
  - exists "". split; reflexivity.
  - exists s. split; [reflexivity |].
    now apply text_lines_normal in Hin.
Qed.

Lemma process_text_block_entries_witness :
  "A" <> "" /\ normalize "A" = "A"
  /\ exists s, Scalar "3" = Scalar s /\ normalize s = s.
Proof.
  apply (process_text_block_entries sample_block_text "A" (Scalar "3")).
  reflexivity.
Defined.

Lemma split_nl_blank (s : string) :
  has_nonspace s = false ->
  Forall (fun l => has_nonspace l = false) (PyStr.split_nl s).
Proof.
  induction s as [| c r IH]; intros H; simpl.
  - repeat constructor.
  - simpl in H. apply orb_false_elim in H. destruct H as [Hc Hr].
    specialize (IH Hr).
    destruct (Ascii.eqb c "010"); [constructor; auto |].
    destruct (PyStr.split_nl r) as [| h t].
    + repeat constructor. simpl. now rewrite Hc.
    + inversion IH; subst. constructor; [| assumption].
      simpl. rewrite Hc. assumption.
Qed.

Lemma strip_blank (s : string) :
  has_nonspace s = false -> PyStr.strip s = EmptyString.
Proof.
  intros H. unfold PyStr.strip. apply rstrip_blank.
  now rewrite lstrip_has_nonspace.
Qed.

Lemma strip_truthy (s : string) :
  PyStr.truthy (PyStr.strip s) = has_nonspace s.
Proof.
  unfold PyStr.strip. now rewrite rstrip_truthy, lstrip_has_nonspace.
Qed.

(** X6. A text made of white space only gives the empty fragment: the
    test [not text.strip()] of [_process_page_content] passes over blocks
    that would add nothing. *)
Theorem process_text_block_blank (text : string) :
  PyStr.truthy (PyStr.strip text) = false ->
  _process_text_block text = [].
Proof.
  rewrite strip_truthy. intros H.
  assert (L : text_lines text = []).
  { unfold text_lines. apply split_nl_blank in H.
    induction H as [| l ls Hl Hls IH]; [reflexivity |].
    simpl. rewrite (strip_blank l Hl). simpl. exact IH. }
  unfold _process_text_block. now rewrite L.
Qed.

Lemma process_text_block_blank_witness :
  _process_text_block (unlines ["  "; ""; " "]) = [].
Proof.
  apply (process_text_block_blank (unlines ["  "; ""; " "])).
  reflexivity.
Defined.

(** ** The boundary locator *)

Lemma find_split {A : Type} (f : A -> bool) (l : list A) :
  match find f l with
  | Some x =>
      exists mid rest,
        l = mid ++ x :: rest
        /\ Forall (fun y => f y = false) mid /\ f x = true
  | None => Forall (fun y => f y = false) l
  end.
Proof.
  induction l as [| a l IH]; simpl; [constructor |].
  destruct (f a) eqn:Fa.
  - exists [], l. repeat split; auto.
  - destruct (find f l) as [x |].
    + destruct IH as [mid [rest [-> [Hm Hx]]]].
      exists (a :: mid), rest. repeat split; auto.
    + constructor; auto.
Qed.

Lemma find_boundaries_spec (self : TextPDFParser) (lines : list string) :
  match find_boundaries self lines with
  | None => Forall (fun l => PyStr.isearch (pat_section self) l = false) lines
  | Some m =>
      exists before after,
        lines = before ++ start_marker m :: after
        /\ Forall (fun l => PyStr.isearch (pat_section self) l = false) before
        /\ PyStr.isearch (pat_section self) (start_marker m) = true
        /\ stop_marker m = find (PyStr.isearch (pat_base_section self)) after
  end.
Proof.
  induction lines as [| line rest IH]; simpl; [constructor |].
  destruct (PyStr.isearch (pat_section self) line) eqn:El.
  - exists [], rest. simpl. repeat split; auto.
  - destruct (find_boundaries self rest) as [m |].
    + destruct IH as [before [after [-> [Hb [Hs Hstop]]]]].
      exists (line :: before), after. repeat split; auto.
    + constructor; auto.
Qed.

Lemma find_section_boundaries_first_aux (self : TextPDFParser) (page : Page) :
  match _find_section_boundaries self page with
  | None => True
  | Some m =>
      exists before after,
        page_lines page = before ++ start_marker m :: after
        /\ PyStr.isearch (pat_section self) (start_marker m) = true
  end.
Proof.
  unfold _find_section_boundaries. fold (page_lines page).
  pose proof (find_boundaries_spec self (page_lines page)) as H.
  destruct (find_boundaries self (page_lines page)) as [m |]; [| exact I].
  destruct H as [before [after [E [Hb [Hs Hstop]]]]].
  now exists before, after.
Qed.

(** X7. [_find_section_boundaries] returns [None] exactly when no trimmed
    line of the page matches the section pattern. Otherwise the start
    marker is the first such line, and the stop marker is the first line
    after it that matches the base pattern, [None] when there is none: the
    start line itself is never taken as the stop. *)
Theorem find_section_boundaries_first (self : TextPDFParser) (page : Page) :
  match _find_section_boundaries self page with
  | None =>
      Forall (fun l => PyStr.isearch (pat_section self) l = false)
        (page_lines page)
  | Some m =>
      exists before after,
        page_lines page = before ++ start_marker m :: after
        /\ Forall (fun l => PyStr.isearch (pat_section self) l = false) before
        /\ PyStr.isearch (pat_section self) (start_marker m) = true
        /\ match stop_marker m with
           | None =>
               Forall (fun l => PyStr.isearch (pat_base_section self) l = false)
                 after
           | Some stop =>
               exists mid rest,
                 after = mid ++ stop :: rest
                 /\ Forall
                      (fun l => PyStr.isearch (pat_base_section self) l = false)
                      mid
                 /\ PyStr.isearch (pat_base_section self) stop = true
           end
  end.
Proof.
  unfold _find_section_boundaries. fold (page_lines page).
  pose proof (find_boundaries_spec self (page_lines page)) as H.
  destruct (find_boundaries self (page_lines page)) as [m |]; [| exact H].
  destruct H as [before [after [E [Hb [Hs Hstop]]]]].
  exists before, after. repeat split; auto.
  rewrite Hstop.
  apply (find_split (PyStr.isearch (pat_base_section self)) after).
Qed.

(** *** Matching and substrings *)

Lemma iprefix_empty (s : string) : PyStr.iprefix EmptyString s = true.
Proof.
  now destruct s.
Qed.

Lemma iprefix_app (p s b : string) :
  PyStr.iprefix p s = true -> PyStr.iprefix p (s ++ b) = true.
Proof.
  revert s. induction p as [| a p IH]; intros s H.
  - apply iprefix_empty.
  - destruct s as [| c s]; [discriminate |]. simpl in *.
    apply andb_true_iff in H. destruct H as [H1 H2].
    rewrite H1. simpl. now apply IH.
Qed.

Lemma isearch_app_r (p s b : string) :
  PyStr.isearch p s = true -> PyStr.isearch p (s ++ b) = true.
Proof.
  induction s as [| c s IH]; intros H.
  - simpl in H. rewrite orb_false_r in H.
    destruct p; [| discriminate].
    destruct b; reflexivity.
  - cbn [PyStr.isearch] in H. apply orb_true_iff in H.
    cbn [String.append PyStr.isearch]. apply orb_true_iff.
    destruct H as [H | H].
    + left. now apply (iprefix_app p (String c s) b).
    + right. now apply IH.
Qed.

Lemma isearch_app_l (p a s : string) :
  PyStr.isearch p s = true -> PyStr.isearch p (a ++ s) = true.
Proof.
  intros H. induction a as [| c a IH]; [exact H |].
  cbn [String.append PyStr.isearch]. rewrite IH. apply orb_true_r.
Qed.

Lemma lstrip_suffix (s : string) : exists a, s = (a ++ PyStr.lstrip s)%string.
Proof.
  induction s as [| c r [a IH]]; simpl.
  - now exists EmptyString.
  - destruct (PyStr.isspace c).
    + exists (String c a). simpl. now rewrite <- IH.
    + now exists EmptyString.
Qed.

Lemma rstrip_prefix (s : string) : exists b, s = (PyStr.rstrip s ++ b)%string.
Proof.
  induction s as [| c r [b IH]]; simpl.
  - now exists EmptyString.
  - destruct (PyStr.isspace c && negb (PyStr.truthy (PyStr.rstrip r))).
    + now exists (String c r).
    + exists b. simpl. now rewrite <- IH.
Qed.

Lemma isearch_strip (p s : string) :
  PyStr.isearch p (PyStr.strip s) = true -> PyStr.isearch p s = true.
Proof.
  intros H. unfold PyStr.strip in H.
  destruct (lstrip_suffix s) as [a Ea].
  destruct (rstrip_prefix (PyStr.lstrip s)) as [b Eb].
  rewrite Ea. apply isearch_app_l. rewrite Eb. now apply isearch_app_r.
Qed.

Lemma split_nl_head (s : string) :
  exists h t b, PyStr.split_nl s = h :: t /\ s = (h ++ b)%string.
Proof.
  induction s as [| c r [h [t [b [E Eb]]]]]; simpl.
  - now exists EmptyString, [], EmptyString.
  - destruct (Ascii.eqb c "010").
    + exists EmptyString, (PyStr.split_nl r), (String c r). now split.
    + rewrite E. exists (String c h), t, b. split; [reflexivity |].
      simpl. now rewrite <- Eb.
Qed.

Lemma split_nl_substring (s l : string) :
  In l (PyStr.split_nl s) -> exists a b, s = (a ++ l ++ b)%string.
Proof.
  induction s as [| c r IH]; simpl.
  - intros [<- | []]. now exists EmptyString, EmptyString.
  - destruct (Ascii.eqb c "010").
    + intros [<- | Hin].
      * now exists EmptyString, (String c r).
      * destruct (IH Hin) as [a [b E]].
        exists (String c a), b. simpl. now rewrite <- E.
    + destruct (split_nl_head r) as [h [t [b [E Eb]]]].
      rewrite E in *. intros [<- | Hin].
      * exists EmptyString, b. simpl. now rewrite <- Eb.
      * destruct (IH (or_intror Hin)) as [a [b' E']].
        exists (String c a), b'. simpl. now rewrite <- E'.
Qed.

Lemma isearch_page_line (p : string) (page : Page) (line : string) :
  In line (page_lines page) ->
  PyStr.isearch p line = true ->
  PyStr.isearch p (get_text page) = true.
Proof.
  unfold page_lines. intros Hin Hm. apply in_map_iff in Hin.
  destruct Hin as [l [<- Hl]]. apply isearch_strip in Hm.
  destruct (split_nl_substring _ _ Hl) as [a [b E]].
  rewrite E. apply isearch_app_l. now apply isearch_app_r.
Qed.

(** X8. A page on which [_find_section_boundaries] finds a start marker
    has a text that matches the section pattern: the test on the whole
    text at the head of the loop of [extract_section] turns away no page
    that has markers. *)
Theorem boundaries_imply_page_match (self : TextPDFParser) (page : Page)
  (m : Markers) :
  _find_section_boundaries self page = Some m ->
  PyStr.isearch (pat_section self) (get_text page) = true.
Proof.
  intros H. pose proof (find_section_boundaries_first_aux self page) as F.
  rewrite H in F. destruct F as [before [after [E Hs]]].
  apply isearch_page_line with (line := start_marker m); [| exact Hs].
  rewrite E. apply in_or_app. right. now left.
Qed.

Lemma boundaries_imply_page_match_witness :
  PyStr.isearch (pat_section (__init__ None)) (get_text sample_page) = true.
Proof.
  apply (boundaries_imply_page_match (__init__ None) sample_page
           (mkMarkers "SECTION 14" (Some "Section 15 - Other Info"))).
  reflexivity.
Defined.

(** *** Blank titles *)

Lemma split_nl_nonempty (s : string) : PyStr.split_nl s <> [].
Proof.
  destruct (split_nl_head s) as [h [t [b [E _]]]]. now rewrite E.
Qed.

(** X10. With a section title made of white space only the pattern is
    empty and matches every line: on every page the first line is the
    start marker. *)
Theorem blank_title_matches_first_line (title : string) (page : Page) :
  PyStr.truthy (PyStr.strip title) = false ->
  exists stop,
    _find_section_boundaries (__init__ (Some title)) page
    = Some {| start_marker := hd EmptyString (page_lines page);
              stop_marker := stop |}.
Proof.
  intros H. unfold _find_section_boundaries. fold (page_lines page).
  assert (P : pat_section (__init__ (Some title)) = EmptyString).
  { simpl. unfold _compile_pattern. now destruct (PyStr.strip title). }
  unfold page_lines.
  destruct (PyStr.split_nl (get_text page)) as [| l ls] eqn:E.
  - now apply split_nl_nonempty in E.
  - cbn [map find_boundaries hd]. rewrite P.
    replace (PyStr.isearch EmptyString (PyStr.strip l)) with true
      by now destruct (PyStr.strip l).
    eexists. reflexivity.
Qed.

Lemma blank_title_matches_first_line_witness :
  exists stop,
    _find_section_boundaries (__init__ (Some "  ")) sample_page
    = Some {| start_marker := hd EmptyString (page_lines sample_page);
              stop_marker := stop |}.
Proof.
  apply (blank_title_matches_first_line "  " sample_page).
  reflexivity.
Defined.

(** ** The name of a document *)

Lemma delete_absent (old s : string) :
  occurs old s = false -> PyStr.delete_from old 0 s = s.
Proof.
  induction s as [| c r IH]; intros H; [reflexivity |].
  cbn [occurs] in H. apply orb_false_elim in H. destruct H as [Hp Hr].
  cbn [PyStr.delete_from]. rewrite Hp. now rewrite IH.
Qed.

Lemma replace_del_absent (old s : string) :
  occurs old s = false -> PyStr.replace_del old s = s.
Proof.
  intros H. unfold PyStr.replace_del.
  destruct (PyStr.truthy old); [now apply delete_absent | reflexivity].
Qed.

(** ** The loop over the pages *)

Section PipelineExtras.

Variable rect_truth : Rect -> bool.
Variable intersects : Rect -> Rect -> bool.

Lemma extract_pages_app (self : TextPDFParser) (ps1 ps2 : list Page) :
  forall result : pydict,
    extract_pages rect_truth intersects self (ps1 ++ ps2) result
    = match extract_pages rect_truth intersects self ps1 result with
      | inl e => inl e
      | inr mid => extract_pages rect_truth intersects self ps2 mid
      end.
Proof.
  induction ps1 as [| page ps1 IH]; intros result; simpl; [reflexivity |].
  destruct (negb (PyStr.isearch (pat_section self) (get_text page)));
    [apply IH |].
  destruct (_find_section_boundaries self page) as [markers |]; [| apply IH].
  destruct (_calculate_subsection_bbox page markers) as [e | [region |]];
    [reflexivity | | apply IH].
  destruct (negb (rect_truth region)); apply IH.
Qed.

(** X11. A page whose text does not match the section pattern adds
    nothing: the document gives the same record, or raises the same
    exception, with and without that page. *)
Theorem page_without_section_ignored (self : TextPDFParser) (name : string)
  (before after : list Page) (page : Page) :
  PyStr.isearch (pat_section self) (get_text page) = false ->
  extract_section rect_truth intersects self
    (mkDocument name (before ++ page :: after))
  = extract_section rect_truth intersects self
      (mkDocument name (before ++ after)).
Proof.
  intros H. unfold extract_section. cbn [doc_name pages].
  rewrite !extract_pages_app.
  destruct (extract_pages rect_truth intersects self before _) as [e | mid];
    [reflexivity |].
  simpl. now rewrite H.
Qed.

(** *** The first entry of the record *)

Lemma dict_set_keeps_head (k k0 : string) (v v0 : value) (d : pydict) :
  k <> k0 -> dict_set k v ((k0, v0) :: d) = (k0, v0) :: dict_set k v d.
Proof.
  intros H. simpl. apply String.eqb_neq in H. now rewrite H.
Qed.

Lemma merge_item_keeps_name_first (s : string) (d : pydict)
  (kv : string * value) :
  exists d', merge_item (("name", Scalar s) :: d) kv = ("name", Scalar s) :: d'.
Proof.
  destruct kv as [key v]. unfold merge_item.
  string_cases key "name".
  - cbn [dict_get]. rewrite String.eqb_refl.
    rewrite dict_set_keeps_head by apply conflict_key_not_name. eauto.
  - assert (G : dict_get key (("name", Scalar s) :: d) = dict_get key d).
    { simpl. apply String.eqb_neq in E. now rewrite E. }
    rewrite G.
    destruct (dict_get key d) as [[s0 | l0] |]; [| destruct v |];
      rewrite dict_set_keeps_head;
      eauto using conflict_key_not_name.
Qed.

Lemma merge_data_keeps_name_first (new : pydict) :
  forall (s : string) (d : pydict),
  exists d', _merge_data (("name", Scalar s) :: d) new = ("name", Scalar s) :: d'.
Proof.
  unfold _merge_data.
  induction new as [| kv new IH]; intros s d; simpl; [eauto |].
  destruct (merge_item_keeps_name_first s d kv) as [d1 ->]. apply IH.
Qed.

Lemma extract_pages_keeps_name_first (self : TextPDFParser)
  (ps : list Page) :
  forall (s : string) (d record : pydict),
    extract_pages rect_truth intersects self ps (("name", Scalar s) :: d)
    = inr record ->
    exists d', record = ("name", Scalar s) :: d'.
Proof.
  induction ps as [| page rest IH]; intros s d record H; simpl in H.
  - injection H as <-. eauto.
  - destruct (negb (PyStr.isearch (pat_section self) (get_text page)));
      [eauto |].
    destruct (_find_section_boundaries self page) as [markers |]; [| eauto].
    destruct (_calculate_subsection_bbox page markers) as [e | [region |]];
      [discriminate | | eauto].
    destruct (negb (rect_truth region)); [eauto |].
    destruct (merge_data_keeps_name_first
                (_process_page_content intersects page region) s d)
      as [d1 E].
    rewrite E in H. eauto.
Qed.

Lemma extract_pages_nodup (self : TextPDFParser) (ps : list Page) :
  forall result record : pydict,
    NoDup (dict_keys result) ->
    extract_pages rect_truth intersects self ps result = inr record ->
    NoDup (dict_keys record).
Proof.
  induction ps as [| page rest IH]; intros result record Hnd H; simpl in H.
  - now injection H as <-.
  - destruct (negb (PyStr.isearch (pat_section self) (get_text page)));
      [eauto |].
    destruct (_find_section_boundaries self page) as [markers |]; [| eauto].
    destruct (_calculate_subsection_bbox page markers) as [e | [region |]];
      [discriminate | | eauto].
    destruct (negb (rect_truth region)); [eauto |].
    apply IH in H; [exact H |]. now apply merge_data_nodup.
Qed.

(** X14. The record that [extract_section] returns begins with the
    [name] entry, whatever the pages hold, and its keys are pairwise
    distinct. *)
Theorem record_begins_with_name (self : TextPDFParser) (doc : Document)
  (record : pydict) :
  extract_section rect_truth intersects self doc = inr record ->
  (exists others,
      record
      = ("name", Scalar (PyStr.replace_del ".pdf" (doc_name doc))) :: others)
  /\ NoDup (dict_keys record).
Proof.
  unfold extract_section. intros H. split.
  - now apply extract_pages_keeps_name_first in H.
  - apply extract_pages_nodup in H; [exact H |].
    simpl. repeat constructor. intros [].
Qed.

(** X15. A document name in which [.pdf] does not occur, in lower case,
    is the [name] of the record unchanged: an extension written [.PDF]
    stays. *)
Theorem record_name_unchanged (self : TextPDFParser)
  (doc : Document) (record : pydict) :
  occurs ".pdf" (doc_name doc) = false ->
  extract_section rect_truth intersects self doc = inr record ->
  dict_get "name" record = Some (Scalar (doc_name doc)).
Proof.
  intros Ho H. unfold extract_section in H.
  apply extract_pages_keeps_name_first in H. destruct H as [d' ->].
  simpl. now rewrite replace_del_absent.
Qed.

(** *** The fragment of a page *)

Lemma fold_left_merge_map {A : Type} (f : A -> pydict) (l : list A) :
  forall content : pydict,
    fold_left (fun c x => _merge_data c (f x)) l content
    = fold_left _merge_data (map f l) content.
Proof.
  induction l as [| x l IH]; intros content; simpl; [reflexivity | apply IH].
Qed.

Lemma block_turns_kept (zones : list Rect) (blocks : list Block) :
  forall content : pydict,
    fold_left (block_turn intersects zones) blocks content
    = fold_left _merge_data
        (map (fun b => _process_text_block (block_text b))
           (filter (kept_block intersects zones) blocks))
        content.
Proof.
  induction blocks as [| b blocks IH]; intros content; simpl;
    [reflexivity |].
  unfold block_turn at 2, kept_block at 1.
  destruct (PyStr.truthy (PyStr.strip (block_text b))); simpl.
  - destruct (existsb (fun zone => intersects (block_rect b) zone) zones);
      simpl; apply IH.
  - apply IH.
Qed.

(** X16. The fragment of a page is the merge, started from the empty
    dict, of the fragments of all the tables of the region, in order, and
    then of the text blocks, in order, that have some text and meet the
    box of none of these tables, wherever the table comes in the list. *)
Theorem page_content_tables_then_blocks (page : Page) (region : Rect) :
  _process_page_content intersects page region
  = fold_left _merge_data
      (map (fun t => _process_table (extract t)) (find_tables page region)
       ++ map (fun b => _process_text_block (block_text b))
            (filter
               (kept_block intersects (map bbox (find_tables page region)))
               (get_blocks page region)))
      [].
Proof.
  unfold _process_page_content.
  rewrite table_turns. cbn [app].
  rewrite fold_left_app, block_turns_kept.
  now rewrite (fold_left_merge_map (fun t => _process_table (extract t))).
Qed.

End PipelineExtras.

(** ** The exporter *)

Lemma dict_get_nth (data : pydict) :
  forall (j : nat) (k : string) (v : value),
    NoDup (dict_keys data) ->
    nth_error data j = Some (k, v) ->
    dict_get k data = Some v.
Proof.
  induction data as [| [k0 v0] data IH]; intros j k v Hnd Hj.
  - destruct j; discriminate.
  - inversion Hnd as [| ? ? Hnotin Hnd']; subst.
    destruct j as [| j]; simpl in Hj |- *.
    + injection Hj as -> ->. now rewrite String.eqb_refl.
    + string_cases k k0.
      * exfalso. apply Hnotin. apply nth_error_In in Hj.
        now apply (in_map fst) in Hj.
      * eauto.
Qed.

Lemma nth_error_seq_0 (n i : nat) : i < n -> nth_error (seq 0 n) i = Some i.
Proof.
  intros H. rewrite (nth_error_nth' (seq 0 n) 0) by now rewrite length_seq.
  now rewrite seq_nth.
Qed.

(** X18. [export_to_csv] writes nothing for the empty record only.
    Otherwise the first row holds the keys in order, the data rows are as
    many as the longest value is long (a scalar counting for one), and
    every row has one cell per key. *)
Theorem export_to_csv_matrix (data : pydict) :
  match export_to_csv data with
  | None => data = []
  | Some rows =>
      data <> []
      /\ hd [] rows = dict_keys data
      /\ List.length rows = 1 + list_max (map value_len (map snd data))
      /\ Forall (fun row => List.length row = List.length data) rows
  end.
Proof.
  destruct data as [| kv data]; [reflexivity |].
  unfold export_to_csv. set (d := kv :: data).
  split; [discriminate | split; [reflexivity | split]].
  - cbn [List.length]. now rewrite length_map, length_seq.
  - constructor.
    + unfold dict_keys. apply length_map.
    + apply Forall_forall. intros row Hrow. apply in_map_iff in Hrow.
      destruct Hrow as [i [<- _]]. unfold dict_keys.
      now rewrite !length_map.
Qed.

(** X19. In the rows that [export_to_csv] writes for a record with
    distinct keys, the cell of data row [i] under the key of rank [j] is
    taken from the value of that key: its element of index [i] for a list
    and the scalar itself in row 0, the empty string past the end of the
    list and below a scalar. *)
Theorem export_to_csv_cell (data : pydict) (i j : nat) (k : string)
  (v : value) :
  NoDup (dict_keys data) ->
  nth_error data j = Some (k, v) ->
  i < list_max (map value_len (map snd data)) ->
  exists rows row,
    export_to_csv data = Some rows
    /\ nth_error rows (S i) = Some row
    /\ nth_error row j
       = Some (match v with
               | Seq l => nth i l ""
               | Scalar s => if i =? 0 then s else ""
               end).
Proof.
  intros Hnd Hj Hi.
  destruct data as [| kv data]; [destruct j; discriminate |].
  unfold export_to_csv. set (d := kv :: data) in *.
  eexists. eexists. split; [reflexivity | split].
  - cbn [nth_error]. rewrite nth_error_map, nth_error_seq_0 by exact Hi.
    reflexivity.
  - unfold dict_keys. rewrite !nth_error_map, Hj. cbn [option_map fst].
    rewrite (dict_get_nth d j k v Hnd Hj). reflexivity.
Qed.

Lemma export_to_csv_cell_witness :
  exists rows row,
    export_to_csv sample_record = Some rows
    /\ nth_error rows 2 = Some row
    /\ nth_error row 2 = Some "".
Proof.
  apply (export_to_csv_cell sample_record 1 2 "CAS" (Seq ["7732-18-5"])).
  - repeat constructor; simpl; intros H;
      repeat (destruct H as [H | H]; [discriminate |]); destruct H.
  - reflexivity.
  - simpl. lia.
Defined.

(** ** The further properties on the sample inputs *)

Lemma page_without_section_ignored_witness :
  extract_section sample_rect_truth sample_intersects (__init__ None)
    (mkDocument "sheet.pdf" ([] ++ page_other :: [sample_page]))
  = extract_section sample_rect_truth sample_intersects (__init__ None)
      (mkDocument "sheet.pdf" ([] ++ [sample_page])).
Proof.
  apply (page_without_section_ignored sample_rect_truth sample_intersects
           (__init__ None) "sheet.pdf" [] [sample_page] page_other).
  reflexivity.
Defined.

Lemma record_begins_with_name_witness :
  (exists others,
      [("name", Scalar "sheet"); ("Ingredient", Seq ["Water"]);
       ("CAS", Seq ["7732-18-5"]); ("Name", Scalar "Acme");
       ("Date", Scalar "")]
      = ("name", Scalar (PyStr.replace_del ".pdf" (doc_name sample_doc)))
        :: others)
  /\ NoDup
       (dict_keys
          [("name", Scalar "sheet"); ("Ingredient", Seq ["Water"]);
           ("CAS", Seq ["7732-18-5"]); ("Name", Scalar "Acme");
           ("Date", Scalar "")]).
Proof.
  apply (record_begins_with_name sample_rect_truth sample_intersects
           (__init__ None) sample_doc).
  reflexivity.
Defined.

Lemma record_name_unchanged_witness :
  dict_get "name"
    [("name", Scalar "sheet.PDF"); ("Ingredient", Seq ["Water"]);
     ("CAS", Seq ["7732-18-5"]); ("Name", Scalar "Acme"); ("Date", Scalar "")]
  = Some (Scalar (doc_name doc_upper_case)).
Proof.
  apply (record_name_unchanged sample_rect_truth sample_intersects
           (__init__ None) doc_upper_case).
  - reflexivity.
  - reflexivity.
Defined.

(** ** Merges without conflict *)

Lemma merge_item_other_key (d : pydict) (key k : string) (v : value) :
  (forall s, dict_get key d <> Some (Scalar s)) ->
  k <> key ->
  dict_get k (merge_item d (key, v)) = dict_get k d.
Proof.
  intros Hs Hk. unfold merge_item.
  destruct (dict_get key d) as [[s0 | l0] |] eqn:G.
  - now destruct (Hs s0).
  - destruct v; now apply dict_get_set_other.
  - now apply dict_get_set_other.
Qed.

Lemma merge_data_no_conflict (new : pydict) :
  forall (existing : pydict) (h : string),
    NoDup (dict_keys new) ->
    (forall k s, In k (dict_keys new) ->
                 dict_get k existing <> Some (Scalar s)) ->
    dict_get h (_merge_data existing new)
    = match dict_get h new with
      | None => dict_get h existing
      | Some v =>
          match dict_get h existing with
          | Some (Seq a) =>
              Some (Seq (a ++ match v with Seq b => b | Scalar s => [s] end))
          | _ => Some v
          end
      end.
Proof.
  unfold _merge_data.
  induction new as [| [key v] new IH]; intros existing h Hnd Hs;
    [reflexivity |].
  inversion Hnd as [| ? ? Hnotin Hnd']; subst.
  cbn [fold_left].
  assert (Hkey : forall s, dict_get key existing <> Some (Scalar s)).
  { intros s. apply Hs. now left. }
  rewrite IH; [| exact Hnd' |].
  - cbn [dict_get]. string_cases h key.
    + apply dict_get_none_keys in Hnotin. rewrite Hnotin.
      unfold merge_item.
      destruct (dict_get key existing) as [[s0 | l0] |] eqn:G.
      * now destruct (Hkey s0).
      * destruct v; now rewrite dict_get_set_same.
      * now rewrite dict_get_set_same.
    + now rewrite (merge_item_other_key existing key h v Hkey E).
  - intros k s Hin.
    assert (k <> key) by (intros ->; contradiction).
    rewrite (merge_item_other_key existing key k v Hkey) by assumption.
    apply Hs. now right.
Qed.

(** X20. When no key of the incoming fragment meets a scalar in the
    accumulator, the merge works key by key: a key of the fragment alone
    gets the incoming value, a key that holds a list gets the incoming
    list added at its end, or the incoming scalar as one more element, and
    the other keys keep their value; no derived key is made. *)
Theorem merge_data_key_by_key (existing new : pydict) (h : string) :
  NoDup (dict_keys new) ->
  (forall k s, In k (dict_keys new) ->
               dict_get k existing <> Some (Scalar s)) ->
  dict_get h (_merge_data existing new)
  = match dict_get h new with
    | None => dict_get h existing
    | Some v =>
        match dict_get h existing with
        | Some (Seq a) =>
            Some (Seq (a ++ match v with Seq b => b | Scalar s => [s] end))
        | _ => Some v
        end
    end.
Proof.
  intros Hnd Hs. now apply merge_data_no_conflict.
Qed.

Lemma merge_data_key_by_key_witness :
  dict_get "CAS"
    (_merge_data (_process_table sample_grid)
       [("CAS", Seq ["64-17-5"]); ("Note", Scalar "n")])
  = match dict_get "CAS" [("CAS", Seq ["64-17-5"]); ("Note", Scalar "n")] with
    | None => dict_get "CAS" (_process_table sample_grid)
    | Some v =>
        match dict_get "CAS" (_process_table sample_grid) with
        | Some (Seq a) =>
            Some (Seq (a ++ match v with Seq b => b | Scalar s => [s] end))
        | _ => Some v
        end
    end.
Proof.
  apply (merge_data_key_by_key (_process_table sample_grid)
           [("CAS", Seq ["64-17-5"]); ("Note", Scalar "n")] "CAS").
  - repeat constructor; simpl; intros H;
      repeat (destruct H as [H | H]; [discriminate |]); destruct H.
  - simpl. intros k s [<- | [<- | []]]; discriminate.
Defined.

(** ** Edges of the table and of the region *)

Lemma width_of_empty_row {A : Type} (rows : list (list A)) :
  In [] rows -> width_of rows = 0.
Proof.
  induction rows as [| r rs IH]; intros H; [destruct H |].
  destruct rs as [| r2 rs].
  - destruct H as [-> | []]. reflexivity.
  - change (width_of (r :: r2 :: rs))
      with (Nat.min (List.length r) (width_of (r2 :: rs))).
    destruct H as [-> | H]; [reflexivity |].
    rewrite IH by exact H. apply Nat.min_0_r.
Qed.

(** X21. A table with an empty header row, or with a data row without
    cells, gives the empty fragment: the transposition stops with the
    shortest row. *)
Theorem process_table_empty_row (data : list (list cell)) :
  hd [] data = [] \/ In [] (tl data) ->
  _process_table data = [].
Proof.
  intros H. destruct data as [| hdr [| r rest]]; try reflexivity.
  rewrite process_table_rows. cbn [hd tl] in H.
  destruct H as [-> | H]; [reflexivity |].
  assert (Z : zip_star (r :: rest) = []).
  { apply length_zero_iff_nil. rewrite zip_star_length.
    now apply width_of_empty_row. }
  rewrite Z. now rewrite combine_nil.
Qed.

Lemma process_table_empty_row_witness :
  _process_table [[Some "A"; Some "B"]; [Some "1"; Some "2"]; []] = [].
Proof.
  apply (process_table_empty_row
           [[Some "A"; Some "B"]; [Some "1"; Some "2"]; []]).
  right. simpl. now right; left.
Defined.

(** X22. [_calculate_subsection_bbox] returns a region only when both
    searches returned and each found a rectangle; the region is then the
    one made of their first rectangles and of the page width. *)
Theorem calculate_subsection_bbox_region (page : Page) (markers : Markers)
  (region : Rect) :
  _calculate_subsection_bbox page markers = inr (Some region) ->
  exists s ss t ts,
    search_for page (Some (start_marker markers)) = Found (s :: ss)
    /\ search_for page (stop_marker markers) = Found (t :: ts)
    /\ region = mkRect 0 (y1 s) (page_width page) (y0 t).
Proof.
  unfold _calculate_subsection_bbox. intros H.
  destruct (search_for page (Some (start_marker markers)))
    as [[| s ss] | [| n]]; try discriminate;
    destruct (search_for page (stop_marker markers))
      as [[| t ts] | [| n']]; try discriminate.
  injection H as <-. now exists s, ss, t, ts.
Qed.

Lemma calculate_subsection_bbox_region_witness :
  exists s ss t ts,
    search_for sample_page
      (Some (start_marker
               (mkMarkers "SECTION 14" (Some "Section 15 - Other Info"))))
    = Found (s :: ss)
    /\ search_for sample_page
         (stop_marker
            (mkMarkers "SECTION 14" (Some "Section 15 - Other Info")))
       = Found (t :: ts)
    /\ mkRect 0 112 595 300 = mkRect 0 (y1 s) (page_width sample_page) (y0 t).
Proof.
  apply (calculate_subsection_bbox_region sample_page
           (mkMarkers "SECTION 14" (Some "Section 15 - Other Info"))
           (mkRect 0 112 595 300)).
  reflexivity.
Defined.

(** ** From the document to the rows *)

Lemma list_max_with_one (l : list nat) :
  exists n, list_max (1 :: l) = S n.
Proof.
  cbn [list_max fold_right]. fold (list_max l).
  destruct (list_max l) as [| m]; [now exists 0 | now exists m].
Qed.

(** X23. The rows written for the record of a document begin with a
    header row whose first cell is [name] and have at least one data row,
    whose first cell is the name kept for the document. *)
Theorem export_of_extract_section (rect_truth : Rect -> bool)
  (intersects : Rect -> Rect -> bool) (self : TextPDFParser)
  (doc : Document) (record : pydict) :
  extract_section rect_truth intersects self doc = inr record ->
  exists headers cells rows,
    export_to_csv record
    = Some (("name" :: headers)
            :: (PyStr.replace_del ".pdf" (doc_name doc) :: cells)
            :: rows).
Proof.
  intros H. unfold extract_section in H.
  apply extract_pages_keeps_name_first in H. destruct H as [others ->].
  unfold export_to_csv.
  cbn [map snd value_len].
  destruct (list_max_with_one (map value_len (map snd others))) as [n ->].
  cbn [seq map dict_keys fst dict_get]. rewrite String.eqb_refl.
  cbn [csv_entry Nat.eqb]. eauto.
Qed.

Lemma export_of_extract_section_witness :
  exists headers cells rows,
    export_to_csv
      [("name", Scalar "sheet"); ("Ingredient", Seq ["Water"]);
       ("CAS", Seq ["7732-18-5"]); ("Name", Scalar "Acme");
       ("Date", Scalar "")]
    = Some (("name" :: headers)
            :: (PyStr.replace_del ".pdf" (doc_name sample_doc) :: cells)
            :: rows).
Proof.
  apply (export_of_extract_section sample_rect_truth sample_intersects
           (__init__ None) sample_doc).
  reflexivity.
Defined.

(** ** A page with a start marker and no stop marker, on the real engine *)

(** C2, on the code. For a page with a line that matches the section
    pattern and no later line that matches the base pattern,
    [_find_section_boundaries] returns markers whose stop marker is [None],
    and [_calculate_subsection_bbox] hands that [None] to [search_for]:
    the key is there, so that the handler of [KeyError] has nothing to
    catch. On an engine whose search does not take [None] the run ends in
    that call: the page is not passed over, the pages after it are not
    read, and [extract_section] returns no record. *)
Theorem page_without_stop_ends_extraction (rect_truth : Rect -> bool)
  (intersects : Rect -> Rect -> bool) (self : TextPDFParser)
  (name : string) (page : Page) (rest : list Page)
  (before after : list string) (line error : string)
  (start_rects : list Rect) :
  page_lines page = before ++ line :: after ->
  Forall (fun l => PyStr.isearch (pat_section self) l = false) before ->
  PyStr.isearch (pat_section self) line = true ->
  Forall (fun l => PyStr.isearch (pat_base_section self) l = false) after ->
  search_for page (Some line) = Found start_rects ->
  search_for page None = Raised (OtherError error) ->
  _find_section_boundaries self page
  = Some {| start_marker := line; stop_marker := None |}
  /\ _calculate_subsection_bbox page
       {| start_marker := line; stop_marker := None |}
     = inl (OtherError error)
  /\ extract_section rect_truth intersects self
       (mkDocument name (page :: rest))
     = inl (OtherError error).
Proof.
  intros Hlines Hb Hl Ha Hs Hn.
  assert (M : _find_section_boundaries self page
              = Some {| start_marker := line; stop_marker := None |}).
  { unfold _find_section_boundaries. fold (page_lines page).
    rewrite Hlines. now apply find_boundaries_no_stop. }
  split; [exact M | split].
  - unfold _calculate_subsection_bbox. cbn [start_marker stop_marker].
    now rewrite Hs, Hn.
  - unfold extract_section. cbn [pages doc_name].
    apply extract_pages_raises_without_stop
      with (line := line) (start_rects := start_rects); auto.
    apply isearch_page_line with (line := line); [| exact Hl].
    rewrite Hlines. apply in_or_app. right. now left.
Qed.

Lemma page_without_stop_ends_extraction_witness :
  _find_section_boundaries (__init__ None) page_without_stop_strict
  = Some {| start_marker := "SECTION 14"; stop_marker := None |}
  /\ _calculate_subsection_bbox page_without_stop_strict
       {| start_marker := "SECTION 14"; stop_marker := None |}
     = inl (OtherError "search_for(None)")
  /\ extract_section sample_rect_truth sample_intersects (__init__ None)
       (mkDocument "sheet.pdf" (page_without_stop_strict :: [sample_page]))
     = inl (OtherError "search_for(None)").
Proof.
  apply (page_without_stop_ends_extraction sample_rect_truth
           sample_intersects (__init__ None) "sheet.pdf"
           page_without_stop_strict [sample_page]
           [] ["Transport information"] "SECTION 14" "search_for(None)"
           [mkRect 72 100 200 112]).
  - reflexivity.
  - constructor.
  - reflexivity.
  - repeat constructor.
  - reflexivity.
  - reflexivity.
Defined.
